(** * dtwa_bbgky_opt: the distributed sampling / integration / reduction
      driver of the dTWA-BBGKY solver

    A shallow embedding of [Dtwa_BBGKY_System_opt.dtwa_bbgky]
    (src/dtwa_quantum_spins/dtwa_bbgky_opt.py) and proofs about its
    work partition, its seed scatter, its time grid and the shape of a run.

    Conventions.
    - Python integers are [Z]; array indices and lengths are [nat].
    - The floats of the time grid (lines 125-128) are binary64 values, the
      [spec_float] of the standard library with its correctly rounded
      operations: a Python [float] and a numpy [float64] differ in what a
      division by zero does, not in their values.
    - The channels of the data set, which only occur in the part modelled
      from the specification, are rationals [Q].
    - The modules [consts], [funcs], [classes] and [reductions] imported by
      the file are not part of the source; what the driver needs from them
      is a parameter of the model (or, where a statement is about their
      behaviour, a definition marked as modelled from the specification). *)

From Stdlib Require Import String ZArith List Lia Bool QArith FinFun.
From Stdlib Require Import SpecFloat.
Import ListNotations.
Open Scope Z_scope.

(** ** Small list toolkit (numpy operations used by the driver) *)

Definition Zsum (l : list Z) : Z := fold_right Z.add 0 l.

(** [range n]: the ranks / indices [0, 1, ..., n-1] (empty for [n <= 0]). *)
Definition range (n : Z) : list Z := map Z.of_nat (seq 0 (Z.to_nat n)).

(** [np.cumsum]. *)
Fixpoint cumsum_from (acc : Z) (l : list Z) : list Z :=
  match l with
  | [] => []
  | x :: l' => (acc + x) :: cumsum_from (acc + x) l'
  end.

Definition cumsum (l : list Z) : list Z := cumsum_from 0 l.

(** [np.roll a k]: the element at index [i] moves to index [(i + k) mod n]. *)
Definition roll {A : Type} (a : list A) (k : Z) : list A :=
  match a with
  | [] => []
  | _ =>
      let n := Z.of_nat (List.length a) in
      let cut := Z.to_nat (n - k mod n) in
      skipn cut a ++ firstn cut a
  end.

(** [a[i] = v] on an array: [IndexError] ([None]) outside [-n .. n-1],
    negative indices count from the end. *)
Fixpoint set_nth {A : Type} (i : nat) (v : A) (a : list A) : list A :=
  match a, i with
  | [], _ => []
  | _ :: a', O => v :: a'
  | x :: a', S i' => x :: set_nth i' v a'
  end.

Definition setitem {A : Type} (a : list A) (i : Z) (v : A) : option (list A) :=
  let n := Z.of_nat (List.length a) in
  if (0 <=? i) && (i <? n) then Some (set_nth (Z.to_nat i) v a)
  else if (- n <=? i) && (i <? 0) then Some (set_nth (Z.to_nat (n + i)) v a)
  else None.

(** Addition on [np.int64]: the sum wrapped into [-2^63 .. 2^63 - 1]. *)
Definition int64_wrap (z : Z) : Z := (z + 2 ^ 63) mod 2 ^ 64 - 2 ^ 63.

Definition int64_add (a b : Z) : Z := int64_wrap (a + b).

(** Collect the results of a fallible function over a list. *)
Fixpoint traverse {A B : Type} (f : A -> option B) (l : list A) : option (list B) :=
  match l with
  | [] => Some []
  | x :: l' =>
      match f x, traverse f l' with
      | Some y, Some ys => Some (y :: ys)
      | _, _ => None
      end
  end.

(** Exclusive prefix sums: what the displacements of a scatter must be. *)
Fixpoint excl_from (acc : Z) (l : list Z) : list Z :=
  match l with
  | [] => []
  | x :: l' => acc :: excl_from (acc + x) l'
  end.

(** ** WorkPartitioner: lines 137-160 of [dtwa_bbgky] *)

Module Partition.

(** The round-robin counting loop
<<
      nt_loc = 0
      iterator = rank
      while iterator < self.n_t:
          nt_loc += 1
          iterator += comm.size
>>
    with explicit fuel: [None] means the loop did not finish within [fuel]
    iterations. *)
Fixpoint nt_loc_loop (fuel : nat) (n_t size iterator nt_loc : Z) : option Z :=
  if iterator <? n_t then
    match fuel with
    | O => None
    | S fuel' => nt_loc_loop fuel' n_t size (iterator + size) (nt_loc + 1)
    end
  else Some nt_loc.

(** The loop as the driver runs it, started at [iterator = rank]; for a
    communicator of at least one process [n_t - rank] iterations are enough
    (lemma [nt_loc_total]). *)
Definition nt_loc (n_t size rank : Z) : option Z :=
  nt_loc_loop (Z.to_nat (n_t - rank)) n_t size rank 0.

(** The value the loop computes, in closed form. *)
Definition nt_loc_val (n_t size rank : Z) : Z :=
  Z.max 0 ((n_t - rank + size - 1) / size).

(** [comm.gather(nt_loc, root=root)]: on the root, the list of the counts
    the processes computed, in rank order. *)
Definition all_ntlocs (n_t size : Z) : option (list Z) :=
  traverse (nt_loc n_t size) (range size).

(** [np.arange(self.n_t, dtype=np.int64) + 1]. *)
Definition all_seeds (n_t : Z) : list Z := map (fun i => i + 1) (range n_t).

Section Root.

(** [root] comes from the module [consts], which is not in the source. *)
Variable root : Z.

(** Lines 152-153:
<<
      all_displacements = np.roll(np.cumsum(all_ntlocs), root+1)
      all_displacements[root] = 0 # First displacement
>> *)
Definition all_displacements (ntlocs : list Z) : option (list Z) :=
  setitem (roll (cumsum ntlocs) (root + 1)) root 0.

(** [comm.Scatterv([all_seeds, all_ntlocs, all_displacements, ...],
    local_seeds)]: rank [r] receives the [counts[r]] entries of the send
    buffer that start at [displs[r]]. *)
Definition scatterv (sendbuf counts displs : list Z) (rank : Z) : list Z :=
  let r := Z.to_nat rank in
  firstn (Z.to_nat (nth r counts 0)) (skipn (Z.to_nat (nth r displs 0)) sendbuf).

(** The seeds rank [rank] holds after the scatter. *)
Definition local_seeds (n_t size rank : Z) : option (list Z) :=
  match all_ntlocs n_t size with
  | Some ntlocs =>
      match all_displacements ntlocs with
      | Some displs => Some (scatterv (all_seeds n_t) ntlocs displs rank)
      | None => None
      end
  | None => None
  end.

End Root.

End Partition.

(** ** Binary64 floating point: Python's [float] and numpy's [float64] *)

Module Binary64.

Definition prec : Z := 53.
Definition emax : Z := 1024.

(** A binary64 value: a signed zero, a signed infinity, a NaN, or the
    finite number [(-1)^s * m * 2^e]. *)
Definition t : Type := spec_float.

(** [m * 2^e] rounded to nearest, ties to even; a number beyond the
    range becomes an infinity. *)
Definition of_dyadic (m e : Z) : t := binary_normalize prec emax m e false.

Definition of_Z (z : Z) : t := of_dyadic z 0.

Definition add : t -> t -> t := SFadd prec emax.
Definition sub : t -> t -> t := SFsub prec emax.
Definition mul : t -> t -> t := SFmul prec emax.
Definition div : t -> t -> t := SFdiv prec emax.

Definition is_zero (x : t) : bool :=
  match x with S754_zero _ => true | _ => false end.

Definition is_nan (x : t) : bool :=
  match x with S754_nan => true | _ => false end.

Definition is_infinite (x : t) : bool :=
  match x with S754_infinity _ => true | _ => false end.

Definition signbit (x : t) : bool :=
  match x with
  | S754_zero s | S754_infinity s | S754_finite s _ _ => s
  | S754_nan => false
  end.

(** The least integer not below a finite [x]. *)
Definition ceil (x : t) : option Z :=
  match x with
  | S754_zero _ => Some 0
  | S754_finite s m e =>
      let n := if s then Z.neg m else Z.pos m in
      Some (if 0 <=? e then n * 2 ^ e else - ((- n) / 2 ^ (- e)))
  | S754_infinity _ | S754_nan => None
  end.

End Binary64.

(** ** Time grid: lines 125-135 of [dtwa_bbgky] *)

Module TimeGrid.

(** A number as it can stand in the tuple [(t_init, t_final, n_steps)]. *)
Inductive item : Type :=
| IntItem (z : Z)                  (* a Python [int] *)
| FloatItem (x : Binary64.t)       (* a Python [float] *)
| NpFloatItem (x : Binary64.t).    (* a numpy [float64] scalar *)

(** A floating-point result: a Python [float] or a numpy [float64]. *)
Inductive flo : Type :=
| PyF (x : Binary64.t)
| NpF (x : Binary64.t).

(** The Python values a caller can pass as [time_info]. *)
Inductive pyobj : Type :=
| PyTuple (items : list item)
| PyList (items : list Binary64.t)
| PyNdarray (items : list Binary64.t)
| PyFloat (x : Binary64.t)
| PyNone.

Inductive exn : Type :=
| ValueError          (* tuple unpacking with the wrong number of items;
                         an array whose length cannot be computed *)
| ZeroDivisionError   (* Python float division by zero *)
| OverflowError       (* a Python int too large to convert to float *)
| IndexError          (* item assignment outside an array *)
| AttributeError.     (* a method looked up on [None] *)

(** How a call of the driver ends on one process. *)
Inductive outcome (A : Type) : Type :=
| Return (a : A)
| Raise (e : exn)
| Exit (status : Z)   (* [exit(status)] *)
| Hang.               (* blocked in a collective, or a loop that never ends *)

Arguments Return {A} a.
Arguments Raise {A} e.
Arguments Exit {A} status.
Arguments Hang {A}.

(** The result of an arithmetic expression: a value or an exception. *)
Inductive result (A : Type) : Type :=
| Ok (a : A)
| Err (e : exn).

Arguments Ok {A} a.
Arguments Err {A} e.

Definition and_then {A B : Type} (r : result A) (k : A -> result B) : result B :=
  match r with
  | Ok a => k a
  | Err e => Err e
  end.

Notation "x <-- r ;; k" := (and_then r (fun x => k))
  (at level 61, r at next level, right associativity).

(** *** Arithmetic on Python and numpy numbers *)

Definition is_numpy (a : item) : bool :=
  match a with NpFloatItem _ => true | _ => false end.

(** A floating-point item of either type. *)
Definition float_item (numpy : bool) (x : Binary64.t) : item :=
  if numpy then NpFloatItem x else FloatItem x.

Definition item_of_flo (f : flo) : item :=
  match f with PyF x => FloatItem x | NpF x => NpFloatItem x end.

Definition flo_val (f : flo) : Binary64.t :=
  match f with PyF x | NpF x => x end.

(** [float(z)]: the nearest binary64, [OverflowError] beyond the range. *)
Definition float_of_int (z : Z) : result Binary64.t :=
  let x := Binary64.of_Z z in
  if Binary64.is_infinite x then Err OverflowError else Ok x.

(** The operand of a floating-point operation. *)
Definition as_float (a : item) : result Binary64.t :=
  match a with
  | IntItem z => float_of_int z
  | FloatItem x | NpFloatItem x => Ok x
  end.

(** An operation with at least one floating-point operand: the result is
    a numpy [float64] as soon as one operand is (numpy's scalar type is a
    subclass of [float] and its method is tried first), a Python [float]
    otherwise. *)
Definition float_op (op : Binary64.t -> Binary64.t -> Binary64.t) (a b : item)
  : result flo :=
  x <-- as_float a ;;
  y <-- as_float b ;;
  Ok (if is_numpy a || is_numpy b then NpF (op x y) else PyF (op x y)).

(** [a - b]: exact on two Python ints. *)
Definition sub (a b : item) : result item :=
  match a, b with
  | IntItem x, IntItem y => Ok (IntItem (x - y))
  | _, _ => f <-- float_op Binary64.sub a b ;; Ok (item_of_flo f)
  end.

(** [a + b] and [a / b] with a floating-point [b]. Python's own float
    division raises [ZeroDivisionError] on a zero divisor; a division with
    a numpy operand follows IEEE 754 and gives an infinity or a NaN (the
    warning numpy would print is switched off at line 110,
    [np.seterr(all='ignore')]). *)
Definition add (a : item) (b : flo) : result flo :=
  float_op Binary64.add a (item_of_flo b).

Definition truediv (a : item) (b : flo) : result flo :=
  x <-- as_float a ;;
  match b with
  | PyF y =>
      if is_numpy a then Ok (NpF (Binary64.div x y))
      else if Binary64.is_zero y then Err ZeroDivisionError
      else Ok (PyF (Binary64.div x y))
  | NpF y => Ok (NpF (Binary64.div x y))
  end.

(** [a != 0]. *)
Definition nonzero (a : item) : bool :=
  match a with
  | IntItem z => negb (z =? 0)
  | FloatItem x | NpFloatItem x => negb (Binary64.is_zero x)
  end.

(** *** [np.arange(start, stop, step)] with a floating-point step *)

Definition intp_min : Z := - 2 ^ 63.
Definition intp_max : Z := 2 ^ 63 - 1.

(** The number of elements is the ceiling of [value], an [intp]: numpy
    raises [ValueError] for a NaN and [OverflowError] outside the range of
    [intp] (the bounds are compared as doubles, and the double next to
    [intp_max] is [2^63], where the conversion gives [intp_min] on
    x86-64). *)
Definition safe_ceil_to_intp (value : Binary64.t) : result Z :=
  match Binary64.ceil value with
  | Some n =>
      if (intp_min <=? n) && (n <=? intp_max) then Ok n
      else if n =? intp_max + 1 then Ok intp_min
      else Err OverflowError
  | None =>
      if Binary64.is_nan value then Err ValueError else Err OverflowError
  end.

(** The length of the array and, for a positive length, [start + step]:
    numpy computes [(stop - start)/step] and [start + step] with the
    operators of the objects. A quotient that is zero although
    [stop - start] is not (underflow, or an infinite step) gives one
    element, none if the zero is negative. *)
Definition calc_length (start stop : item) (step : flo)
  : result (Z * option flo) :=
  next <-- sub stop start ;;
  val <-- truediv next step ;;
  let value := flo_val val in
  len <-- safe_ceil_to_intp value ;;
  let len :=
    if Binary64.is_zero value && nonzero next
    then (if Binary64.signbit value then 0 else 1)
    else len in
  if 0 <? len then (next <-- add start step ;; Ok (len, Some next))
  else Ok (len, None).

(** Element [i >= 2] of the array: [start + i*delta], where [delta] is the
    difference of the first two elements. *)
Definition fill (start delta : Binary64.t) (i : nat) : Binary64.t :=
  Binary64.add start (Binary64.mul (Binary64.of_Z (Z.of_nat i)) delta).

(** The array: empty for a length that is not positive, else [start],
    [start + step] and the elements [fill] computes. An [OverflowError]
    met while the length is computed is turned into a [ValueError]. The
    array is taken to fit into memory. *)
Definition arange (start stop : item) (step : flo) : result (list Binary64.t) :=
  match calc_length start stop step with
  | Err OverflowError => Err ValueError
  | Err e => Err e
  | Ok (_, None) => Ok []
  | Ok (len, Some next) =>
      first <-- as_float start ;;
      let second := flo_val next in
      let delta := Binary64.sub second first in
      Ok (first :: match Z.to_nat len with
                   | S (S n) => second :: map (fill first delta) (seq 2 n)
                   | S O => []
                   | O => []
                   end)
  end.

(** *** Lines 125-135 *)

(** [type(v) is tuple], [type(v) is list]. *)
Definition type_is_tuple (v : pyobj) : bool :=
  match v with PyTuple _ => true | _ => false end.

Definition type_is_list (v : pyobj) : bool :=
  match v with PyList _ => true | _ => false end.

(** The truth value of the class object [np.ndarray]: a class defines
    neither [__bool__] nor [__len__] for itself, so it is true. *)
Definition truth_of_ndarray_class : bool := true.

(** The condition of line 129, [type(time_info) is list  or np.ndarray],
    which Python parses as [(type(time_info) is list) or np.ndarray]. *)
Definition list_or_ndarray (time_info : pyobj) : bool :=
  type_is_list time_info || truth_of_ndarray_class.

(** Line 127, [dt = (t_final-t_init)/(n_steps-1.0)]. *)
Definition time_step (t_init t_final n_steps : item) : result flo :=
  span <-- sub t_final t_init ;;
  denom <-- float_op Binary64.sub n_steps (FloatItem (Binary64.of_Z 1)) ;;
  truediv span denom.

(** Lines 126-128, the tuple branch:
<<
	(t_init, t_final, n_steps) = time_info
	dt = (t_final-t_init)/(n_steps-1.0)
	t_output = np.arange(t_init, t_final, dt)
>> *)
Definition grid_of_tuple (items : list item) : result (list Binary64.t) :=
  match items with
  | [t_init; t_final; n_steps] =>
      dt <-- time_step t_init t_final n_steps ;;
      arange t_init t_final dt
  | _ => Err ValueError
  end.

(** The four arms of the conditional at lines 125-135. *)
Inductive branch : Type :=
| TupleBranch      (* line 125 *)
| VerbatimBranch   (* line 129 *)
| RootExitBranch   (* line 131 *)
| ExitBranch.      (* line 134 *)

Definition select_branch (is_root : bool) (time_info : pyobj) : branch :=
  if type_is_tuple time_info then TupleBranch
  else if list_or_ndarray time_info then VerbatimBranch
  else if is_root then RootExitBranch
  else ExitBranch.

Definition message : string :=
  "Please enter either a tuple or a list for the time interval".

(** The value bound to [t_output] together with the text printed on the
    way. *)
Definition time_block (is_root : bool) (time_info : pyobj)
  : list string * outcome pyobj :=
  match select_branch is_root time_info with
  | TupleBranch =>
      match time_info with
      | PyTuple items =>
          match grid_of_tuple items with
          | Ok g => ([], Return (PyNdarray g))
          | Err e => ([], Raise e)
          end
      | _ => ([], Raise ValueError)
      end
  | VerbatimBranch => ([], Return time_info)
  | RootExitBranch => ([message], Exit 0)
  | ExitBranch => ([], Exit 0)
  end.

(** The inputs and the grids of the scenarios below. *)
Definition f0 : Binary64.t := Binary64.of_Z 0.
Definition f1 : Binary64.t := Binary64.of_Z 1.
Definition f5 : Binary64.t := Binary64.of_Z 5.

(** The grid the specification's scenario expects from [(0.0, 1.0, 5)]:
    [0.0, 0.25, 0.5, 0.75]. *)
Definition scenario_grid : list Binary64.t :=
  map (fun m => Binary64.of_dyadic m (-2)) [0; 1; 2; 3].

End TimeGrid.

(** ** The driver [dtwa_bbgky], lines 108-222 *)

Module Driver.

Import TimeGrid.

(** Element types of the arrays that occur in the driver. *)
Inductive Dtype : Type := Float64 | Float128.

(** The fields of [self] the driver reads: [self.n_t], [self.seed_offset],
    [self.verbose] and [self.latsize]. *)
Record System : Type := {
  n_t : Z;
  seed_offset : Z;
  verbose : bool;
  latsize : Z
}.

(** [self] with the verbose output switched off. *)
Definition quiet (self : System) : System :=
  {| n_t := n_t self; seed_offset := seed_offset self; verbose := false;
     latsize := latsize self |}.

(** [comm.rank] and [comm.size]. *)
Record Comm : Type := {
  rank : Z;
  size : Z
}.

Section Collaborators.

(** [consts.root], the rank of the coordinating process. *)
Variable root : Z.

(** Arrays: an element type and contents. [cast] converts contents to an
    element type, as [np.array(a, dtype=...)] and [np.require] do. *)
Variable Data : Type.

Record ndarray : Type := {
  dtype : Dtype;
  data : Data
}.

Variable cast : Dtype -> Data -> Data.

Definition np_array (a : ndarray) (dt : Dtype) : ndarray :=
  {| dtype := dt; data := cast dt (data a) |}.

(** The collaborators from [funcs], [classes], numpy and scipy, as pure
    functions of their arguments:
    [sample(self, sampling, seed)], [np.concatenate((a, b))],
    [odeint(lorenzo_bbgky_pywrap, init_s, t_output, args=(self,))],
    [weyl_hamilt(s, t_output, self)], [t_deriv(hw, t_output)], [np.square],
    [np.sum(rows, axis=0)], the reduction of [Intracomm(comm)] (the value
    the root receives from the contributions in rank order), division of
    an array by an integer, [np.sqrt], and
    [bbgky_observables(t_output, s, self)]. *)
Variable sample : System -> string -> Z -> ndarray * ndarray.
Variable np_concatenate : ndarray -> ndarray -> ndarray.
Variable odeint : System -> ndarray -> pyobj -> ndarray.
Variables (HW Row : Type).
Variable weyl_hamilt : ndarray -> pyobj -> System -> list HW.
Variable t_deriv : HW -> pyobj -> Row.
Variable np_square : Row -> Row.
Variable np_sum_axis0 : list Row -> Row.
Variable intracomm_reduce : list Row -> Row.
Variable row_div : Row -> Z -> Row.
Variable np_sqrt : Row -> Row.

(** The nine observable channels of one data object, and
    [OutData.normalize_data(n_t, N)] on them. *)
Variable Channels : Type.
Variable bbgky_observables : pyobj -> ndarray -> System -> Channels.
Variable normalize_data : Channels -> Z -> Z -> Channels.

Record OutData : Type := {
  t_output : pyobj;
  channels : Channels
}.

(** [sum_reduce_all_data(self, list_of_local_data, t_output, comm)], a
    collective: what the process [comm] gets back when the processes
    pass the lists [world] (in rank order); [None] is Python's [None]. *)
Variable sum_reduce_all_data :
  System -> list (list Channels) -> pyobj -> Comm -> option OutData.

(** What a process does that is visible from outside, in program order. *)
Inductive event : Type :=
| Print (msg : string)
| PrintVars                          (* [pprint(vars(out), depth=2)] *)
| Gather (nt_loc : Z)                (* [comm.gather(nt_loc, root=root)] *)
| Scatterv                           (* [comm.Scatterv(...)] *)
| Sample (seed : Z)                  (* [sample(self, sampling, seed)] *)
| Odeint (full_output : bool)
| WeylHamilt (s : ndarray)
| Observables (s : ndarray)          (* [bbgky_observables(t_output, s, self)] *)
| SumReduceAllData                   (* [sum_reduce_all_data(self, ...)] *)
| DiagReduce (locsum : Row)          (* [temp_comm.reduce(locsum, root=root)] *)
| Normalize (n_t N : Z)              (* [outdat.normalize_data(n_t, N)] *)
| Tabulate (t : pyobj) (dhwdt_abs : option Row).   (* [print(tabulate(...))] *)

(** A computation of the driver: the events so far and how it went on. *)
Definition M (A : Type) : Type := (list event * outcome A)%type.

Definition ret {A : Type} (a : A) : M A := ([], Return a).

Definition bind {A B : Type} (c : M A) (k : A -> M B) : M B :=
  match c with
  | (tr, Return a) => let (tr', o) := k a in (tr ++ tr', o)
  | (tr, Raise e) => (tr, Raise e)
  | (tr, Exit s) => (tr, Exit s)
  | (tr, Hang) => (tr, Hang)
  end.

Definition emit (evs : list event) : M unit := (evs, Return tt).

Definition emit_if (b : bool) (evs : list event) : M unit :=
  if b then emit evs else ret tt.

(** A collective completes only if every process reaches it. *)
Definition arrive {A : Type} (o : option A) : M A :=
  match o with
  | Some a => ret a
  | None => ([], Hang)
  end.

Notation "x <- c ;; k" := (bind c (fun x => k))
  (at level 61, c at next level, right associativity).
Notation "c ;;; k" := (bind c (fun _ => k))
  (at level 61, right associativity).

(** Lines 125-135 in the monad. *)
Definition time_grid (is_root : bool) (time_info : pyobj) : M pyobj :=
  let (msgs, o) := time_block is_root time_info in (map Print msgs, o).

(** One pass of the loop body, lines 168-193, for the seed
    [local_seeds[runcount]]: the events, the local data and the rows that
    extend [list_of_dhwdt_abs2]. *)
Definition trajectory (self : System) (sampling : string) (t_out : pyobj)
  (seed : Z) : list event * (Channels * list Row) :=
  let (s_init_spins, s_init_corrs) := sample self sampling (seed + seed_offset self) in
  let init_s := np_array (np_concatenate s_init_spins s_init_corrs) Float64 in
  let s := odeint self init_s t_out in
  let dhwdt_abs2 :=
    if verbose self
    then map (fun hw => np_square (t_deriv hw t_out)) (weyl_hamilt s t_out self)
    else [] in
  let s128 := np_array s Float128 in
  let localdata := bbgky_observables t_out s128 self in
  ([Sample (seed + seed_offset self); Odeint (verbose self)]
     ++ (if verbose self then [WeylHamilt s] else [])
     ++ [Observables s128],
   (localdata, dhwdt_abs2)).

(** The loop [for runcount in xrange(0, nt_loc, 1)]. *)
Definition trajectory_loop (self : System) (sampling : string) (t_out : pyobj)
  (nt_loc : Z) (local_seeds : list Z)
  : list event * (list Channels * list Row) :=
  let passes :=
    map (fun runcount =>
           trajectory self sampling t_out (nth (Z.to_nat runcount) local_seeds 0))
        (range nt_loc) in
  (concat (map fst passes),
   (map (fun p => fst (snd p)) passes, concat (map (fun p => snd (snd p)) passes))).

(** What the process of rank [r] holds when its loop is over, given the
    gathered counts and the displacements of the scatter. *)
Definition local_lists (self : System) (sampling : string) (t_out : pyobj)
  (ntlocs displs : list Z) (r : Z) : list Channels * list Row :=
  snd (trajectory_loop self sampling t_out (nth (Z.to_nat r) ntlocs 0)
         (Partition.scatterv (Partition.all_seeds (n_t self)) ntlocs displs r)).

(** [dtwa_bbgky(self, time_info, sampling)] on the process [comm.rank] of a
    communicator of [comm.size] processes. *)
Definition dtwa_bbgky (self : System) (comm : Comm) (time_info : pyobj)
  (sampling : string) : M (option OutData) :=
  let N := latsize self in
  let is_root := rank comm =? root in
  emit_if (is_root && verbose self) [Print "# Run parameters:"; PrintVars] ;;;
  emit_if (is_root && negb (verbose self)) [Print "# Starting run ..."] ;;;
  t_out <- time_grid is_root time_info ;;
  nt_loc <- arrive (Partition.nt_loc (n_t self) (size comm) (rank comm)) ;;
  emit [Gather nt_loc] ;;;
  ntlocs <- arrive (Partition.all_ntlocs (n_t self) (size comm)) ;;
  displs <- match Partition.all_displacements root ntlocs with
            | Some d => ret d
            | None => if is_root then ([], Raise IndexError) else ([], Hang)
            end ;;
  emit [Scatterv] ;;;
  let local_seeds :=
    Partition.scatterv (Partition.all_seeds (n_t self)) ntlocs displs (rank comm) in
  let (evs, lists) := trajectory_loop self sampling t_out nt_loc local_seeds in
  let (list_of_local_data, list_of_dhwdt_abs2) := lists in
  emit evs ;;;
  let world := map (local_lists self sampling t_out ntlocs displs) (range (size comm)) in
  emit [SumReduceAllData] ;;;
  let outdat := sum_reduce_all_data self (map fst world) t_out comm in
  dhwdt_abs_totals <-
    (if verbose self then
       let dhwdt_abs2_locsum := np_sum_axis0 list_of_dhwdt_abs2 in
       emit [DiagReduce dhwdt_abs2_locsum] ;;;
       let dhwdt_abs2_totals :=
         intracomm_reduce (map (fun w => np_sum_axis0 (snd w)) world) in
       ret (if is_root
            then Some (np_sqrt (row_div dhwdt_abs2_totals (n_t self * N * N)))
            else None)
     else ret None) ;;
  if is_root then
    match outdat with
    | Some od =>
        emit [Normalize (n_t self) N] ;;;
        let od' := {| t_output := t_output od;
                      channels := normalize_data (channels od) (n_t self) N |} in
        emit_if (verbose self)
          [Print "t-deriv of Hamilt (abs square) with wigner avg: ";
           Print "  "; Tabulate t_out dhwdt_abs_totals] ;;;
        emit [Print "# Done!"] ;;;
        ret (Some od')
    | None => ([], Raise AttributeError)
    end
  else ret None.

(** Recognisers of single kinds of events. *)
Definition is_normalize (ev : event) : bool :=
  match ev with Normalize _ _ => true | _ => false end.

Definition is_sum_reduce (ev : event) : bool :=
  match ev with SumReduceAllData => true | _ => false end.

Definition is_diag_reduce (ev : event) : bool :=
  match ev with DiagReduce _ => true | _ => false end.

Definition is_observables (ev : event) : bool :=
  match ev with Observables _ => true | _ => false end.

Definition is_tabulate (ev : event) : bool :=
  match ev with Tabulate _ _ => true | _ => false end.

End Collaborators.

Arguments Print {Data Row} msg.
Arguments PrintVars {Data Row}.
Arguments Gather {Data Row} nt_loc.
Arguments Scatterv {Data Row}.
Arguments Sample {Data Row} seed.
Arguments Odeint {Data Row} full_output.
Arguments WeylHamilt {Data Row} s.
Arguments Observables {Data Row} s.
Arguments SumReduceAllData {Data Row}.
Arguments DiagReduce {Data Row} locsum.
Arguments Normalize {Data Row} n_t N.
Arguments Tabulate {Data Row} t dhwdt_abs.
Arguments dtype {Data} n.
Arguments data {Data} n.
Arguments t_output {Channels} o.
Arguments channels {Channels} o.
Arguments is_normalize {Data Row} ev.
Arguments is_sum_reduce {Data Row} ev.
Arguments is_diag_reduce {Data Row} ev.
Arguments is_observables {Data Row} ev.
Arguments is_tabulate {Data Row} ev.

End Driver.

(** ** The reduction and the normalisation, from the specification *)

Module SpecModel.

Import TimeGrid Driver.

Section Reduction.

Variable root : Z.
Variable Data : Type.
Variable cast : Dtype -> Data -> Data.
Variable sample : System -> string -> Z -> ndarray Data * ndarray Data.
Variable np_concatenate : ndarray Data -> ndarray Data -> ndarray Data.
Variable odeint : System -> ndarray Data -> pyobj -> ndarray Data.

(** The observable channels with their elementwise sum. *)
Variable Channels : Type.
Variable bbgky_observables : pyobj -> ndarray Data -> System -> Channels.
Variable ch_add : Channels -> Channels -> Channels.
Variable ch_zero : Channels.
Variable normalize_data : Channels -> Z -> Z -> Channels.

(** [np.sum] of a list of data objects, from the left. *)
Definition ch_sum (l : list Channels) : Channels := fold_left ch_add l ch_zero.

(** Modelled from the spec: [funcs.sum_reduce_all_data], which is not in the
    source. Each process sums its local list elementwise, per time point
    and per channel; the local sums are combined by a single global
    sum-reduction into the coordinating process, and only that process
    gets a data object. *)
Definition sum_reduce_all_data_spec (self : System)
  (world : list (list Channels)) (t_out : pyobj) (comm : Comm)
  : option (OutData Channels) :=
  if rank comm =? root
  then Some {| t_output := t_out; channels := ch_sum (map ch_sum world) |}
  else None.

(** The contribution of one seed: sampled, integrated, widened, observed. *)
Definition observe (self : System) (sampling : string) (t_out : pyobj)
  (seed : Z) : Channels :=
  let (s_init_spins, s_init_corrs) := sample self sampling (seed + seed_offset self) in
  let init_s := np_array Data cast (np_concatenate s_init_spins s_init_corrs) Float64 in
  bbgky_observables t_out (np_array Data cast (odeint self init_s t_out) Float128) self.

(** The data set of a run without any partition: the contributions of the
    seeds [1 .. n_t] summed in turn, the sum normalised once. *)
Definition serial_dataset (self : System) (sampling : string) (t_out : pyobj)
  : OutData Channels :=
  {| t_output := t_out;
     channels :=
       normalize_data
         (ch_sum (map (observe self sampling t_out) (Partition.all_seeds (n_t self))))
         (n_t self) (latsize self) |}.

End Reduction.

(** The nine channels as arrays over the time grid. *)
Record ChannelsQ : Type := {
  sx : list Q; sy : list Q; sz : list Q;
  sxvar : list Q; syvar : list Q; szvar : list Q;
  sxyvar : list Q; sxzvar : list Q; syzvar : list Q
}.

Inductive corr_channel : Type := XX | YY | ZZ | XY | XZ | YZ.

Section Normalisation.

(** The site-count factor of each correlation channel for a lattice of [N]
    sites: a property of the physical model, which the specification
    leaves open. *)
Variable site_factor : corr_channel -> Z -> Q.

Definition site_avg (n_t : Z) (ch : list Q) : list Q :=
  map (fun v => (v / inject_Z n_t)%Q) ch.

Definition corr_avg (c : corr_channel) (n_t N : Z) (ch : list Q) : list Q :=
  map (fun v => (v / inject_Z n_t * site_factor c N)%Q) ch.

(** Modelled from the spec: [OutData.normalize_data] of the module
    [classes], which is not in the source. Every summed channel is divided
    by [n_t]; the correlation channels are scaled by their site-count
    factor in addition. *)
Definition normalize_data_spec (ch : ChannelsQ) (n_t N : Z) : ChannelsQ :=
  {| sx := site_avg n_t (sx ch);
     sy := site_avg n_t (sy ch);
     sz := site_avg n_t (sz ch);
     sxvar := corr_avg XX n_t N (sxvar ch);
     syvar := corr_avg YY n_t N (syvar ch);
     szvar := corr_avg ZZ n_t N (szvar ch);
     sxyvar := corr_avg XY n_t N (sxyvar ch);
     sxzvar := corr_avg XZ n_t N (sxzvar ch);
     syzvar := corr_avg YZ n_t N (syzvar ch) |}.

End Normalisation.

End SpecModel.

(** ** A small concrete instance of the collaborators

    Arrays hold one integer; the sampler returns the seed, the integrator
    returns its initial state, the observable of a trajectory is the
    content of its array. Used to run the driver on concrete inputs. *)

Module Toy.

Import TimeGrid Driver.

Definition arr (dt : Dtype) (v : Z) : ndarray Z := {| dtype := dt; data := v |}.

Definition cast (_ : Dtype) (d : Z) : Z := d.

Definition sample (_ : System) (_ : string) (seed : Z) : ndarray Z * ndarray Z :=
  (arr Float64 seed, arr Float64 0).

Definition np_concatenate (a b : ndarray Z) : ndarray Z :=
  arr Float64 (data a + data b).

Definition odeint (_ : System) (init_s : ndarray Z) (_ : pyobj) : ndarray Z := init_s.

Definition weyl_hamilt (s : ndarray Z) (_ : pyobj) (_ : System) : list Z := [data s].

Definition t_deriv (hw : Z) (_ : pyobj) : Z := hw.

Definition np_square (r : Z) : Z := r * r.

Definition bbgky_observables (_ : pyobj) (s : ndarray Z) (_ : System) : Z := data s.

Definition normalize_data (c n_t N : Z) : Z := c / n_t.

Definition sum_reduce_all_data
  : System -> list (list Z) -> pyobj -> Comm -> option (OutData Z) :=
  SpecModel.sum_reduce_all_data_spec 0 Z Z.add 0.

(** The same with the nine channels of the specification: every channel of
    a trajectory holds the content of its array at a single time point. *)
Definition channelsQ (v : Q) : SpecModel.ChannelsQ :=
  {| SpecModel.sx := [v]; SpecModel.sy := [v]; SpecModel.sz := [v];
     SpecModel.sxvar := [v]; SpecModel.syvar := [v]; SpecModel.szvar := [v];
     SpecModel.sxyvar := [v]; SpecModel.sxzvar := [v]; SpecModel.syzvar := [v] |}.

Definition bbgky_observablesQ (_ : pyobj) (s : ndarray Z) (_ : System)
  : SpecModel.ChannelsQ := channelsQ (inject_Z (data s)).

Definition hd0 (l : list Q) : Q := hd 0%Q l.

Definition ch_addQ (a b : SpecModel.ChannelsQ) : SpecModel.ChannelsQ :=
  {| SpecModel.sx := [(hd0 (SpecModel.sx a) + hd0 (SpecModel.sx b))%Q];
     SpecModel.sy := [(hd0 (SpecModel.sy a) + hd0 (SpecModel.sy b))%Q];
     SpecModel.sz := [(hd0 (SpecModel.sz a) + hd0 (SpecModel.sz b))%Q];
     SpecModel.sxvar := [(hd0 (SpecModel.sxvar a) + hd0 (SpecModel.sxvar b))%Q];
     SpecModel.syvar := [(hd0 (SpecModel.syvar a) + hd0 (SpecModel.syvar b))%Q];
     SpecModel.szvar := [(hd0 (SpecModel.szvar a) + hd0 (SpecModel.szvar b))%Q];
     SpecModel.sxyvar := [(hd0 (SpecModel.sxyvar a) + hd0 (SpecModel.sxyvar b))%Q];
     SpecModel.sxzvar := [(hd0 (SpecModel.sxzvar a) + hd0 (SpecModel.sxzvar b))%Q];
     SpecModel.syzvar := [(hd0 (SpecModel.syzvar a) + hd0 (SpecModel.syzvar b))%Q] |}.

Definition site_factor (_ : SpecModel.corr_channel) (N : Z) : Q :=
  (1 / inject_Z N)%Q.

(** Eight trajectories on a lattice of two sites, over the grid of the
    tuple [(0.0, 1.0, 5)]. *)
Definition self8 (verbose : bool) : System :=
  {| n_t := 8; seed_offset := 0; verbose := verbose; latsize := 2 |}.

Definition times : pyobj := PyTuple [FloatItem f0; FloatItem f1; IntItem 5].

(** The grid the time block makes of [times], as it is computed. *)
Definition grid : pyobj := PyNdarray scenario_grid.

(** The tuple [(0.0, 1.0, 1)], and a tuple of two items. *)
Definition one_step : list item := [FloatItem f0; FloatItem f1; IntItem 1].

Definition two_items : list item := [FloatItem f0; FloatItem f1].

(** The driver on this instance, on [size] processes. *)
Definition run (verbose : bool) (size r : Z) : M Z Z (option (OutData Z)) :=
  dtwa_bbgky 0 Z cast sample np_concatenate odeint Z Z weyl_hamilt t_deriv
    np_square Zsum Zsum Z.div Z.sqrt Z bbgky_observables normalize_data
    sum_reduce_all_data (self8 verbose) {| rank := r; size := size |} times "spr".

(** The driver called with the scalar [5.0] for [time_info], on a single
    process. *)
Definition run_scalar : M Z Z (option (OutData Z)) :=
  dtwa_bbgky 0 Z cast sample np_concatenate odeint Z Z weyl_hamilt t_deriv
    np_square Zsum Zsum Z.div Z.sqrt Z bbgky_observables normalize_data
    sum_reduce_all_data (self8 false) {| rank := 0; size := 1 |} (PyFloat f5) "spr".

(** The same run with diagnostic collaborators that compute nothing. *)
Definition run_mute (verbose : bool) (size r : Z) : M Z unit (option (OutData Z)) :=
  dtwa_bbgky 0 Z cast sample np_concatenate odeint unit unit
    (fun _ _ _ => []) (fun _ _ => tt) (fun u => u) (fun _ => tt) (fun _ => tt)
    (fun u _ => u) (fun u => u) Z bbgky_observables normalize_data
    sum_reduce_all_data (self8 verbose) {| rank := r; size := size |} times "spr".

(** The lists of local data and of squared derivatives of rank [r] in a
    verbose run on three processes. *)
Definition lists3 (r : Z) : list Z * list Z :=
  local_lists Z cast sample np_concatenate odeint Z Z weyl_hamilt t_deriv
    np_square Z bbgky_observables (self8 true) "spr" grid
    (map (Partition.nt_loc_val 8 3) (range 3))
    (excl_from 0 (map (Partition.nt_loc_val 8 3) (range 3))) r.

Definition sum_reduce_all_dataQ
  : System -> list (list SpecModel.ChannelsQ) -> pyobj -> Comm
    -> option (OutData SpecModel.ChannelsQ) :=
  SpecModel.sum_reduce_all_data_spec 0 SpecModel.ChannelsQ ch_addQ (channelsQ 0).

Definition runQ (verbose : bool) (size r : Z)
  : M Z Z (option (OutData SpecModel.ChannelsQ)) :=
  dtwa_bbgky 0 Z cast sample np_concatenate odeint Z Z weyl_hamilt t_deriv
    np_square Zsum Zsum Z.div Z.sqrt SpecModel.ChannelsQ bbgky_observablesQ
    (SpecModel.normalize_data_spec site_factor) sum_reduce_all_dataQ
    (self8 verbose) {| rank := r; size := size |} times "spr".

End Toy.

(** ** Reading a trace *)

Module Trace.

Import Driver.

Section Readers.

Context {Data Row : Type}.

(** The collective operations of the communicator. *)
Inductive collective : Type := CGather | CScatterv | CSumReduce | CDiagReduce.

Definition collective_of (ev : event Data Row) : list collective :=
  match ev with
  | Gather _ => [CGather]
  | Scatterv => [CScatterv]
  | SumReduceAllData => [CSumReduce]
  | DiagReduce _ => [CDiagReduce]
  | _ => []
  end.

(** The collectives a process enters, in program order. *)
Definition collectives (tr : list (event Data Row)) : list collective :=
  flat_map collective_of tr.

(** The arguments [sample] is called with, in program order. *)
Definition sampled (tr : list (event Data Row)) : list Z :=
  flat_map (fun ev => match ev with Sample seed => [seed] | _ => [] end) tr.

(** The [full_output] flags of the calls of [odeint]. *)
Definition odeint_flags (tr : list (event Data Row)) : list bool :=
  flat_map (fun ev => match ev with Odeint b => [b] | _ => [] end) tr.

(** The arrays [weyl_hamilt] is called with. *)
Definition weyl_inputs (tr : list (event Data Row)) : list (ndarray Data) :=
  flat_map (fun ev => match ev with WeylHamilt s => [s] | _ => [] end) tr.

(** What reaches standard output. *)
Definition is_output (ev : event Data Row) : bool :=
  match ev with
  | Print _ | PrintVars | Tabulate _ _ => true
  | _ => false
  end.

(** The events of the loop body. *)
Definition is_trajectory_event (ev : event Data Row) : bool :=
  match ev with
  | Sample _ | Odeint _ | WeylHamilt _ | Observables _ => true
  | _ => false
  end.

End Readers.

End Trace.

(** ** The constructor [__init__], lines 57-106 *)

Module Init.

Import Driver.

(** The attribute values that occur. *)
Inductive pyval : Type :=
| VInt (z : Z)
| VBool (b : bool)
| VComm (c : Comm)
| VArray (a : list Q)     (* a float64 array *)
| VObj (id : nat).        (* any other object, by identity *)

(** An instance dictionary [__dict__]: the binding nearest the head is
    the one an attribute lookup finds. *)
Definition dict : Type := list (string * pyval).

Fixpoint dict_get (k : string) (d : dict) : option pyval :=
  match d with
  | [] => None
  | (k', v) :: d' => if String.eqb k k' then Some v else dict_get k d'
  end.

(** [obj.k = v]. *)
Definition dict_set (k : string) (v : pyval) (d : dict) : dict := (k, v) :: d.

(** [d.update(src)]: the bindings of [src] go over those of [d]. *)
Definition dict_update (d src : dict) : dict := src ++ d.

(** A value used as an integer ([bool] is a subclass of [int]). *)
Definition int_of (v : pyval) : option Z :=
  match v with
  | VInt z => Some z
  | VBool b => Some (if b then 1 else 0)
  | _ => None
  end.

Inductive init_result : Type :=
| Built (self : dict)
| InitAttributeError      (* [params] has no attribute [latsize] *)
| InitTypeError           (* the size of the workspace is not an integer *)
| InitValueError.         (* [np.zeros] of a negative size *)

(** [np.zeros(n)]. *)
Definition np_zeros (n : Z) : option (list Q) :=
  if n <? 0 then None else Some (repeat 0%Q (Z.to_nat n)).

(** [__init__(self, params, mpicomm, n_t=2000, seed_offset=0, verbose=True)]
    on a fresh instance; [None] for an argument left to its default. *)
Definition init (params : dict) (mpicomm : Comm) (n_t seed_offset : option Z)
  (verbose : option bool) : init_result :=
  let self := dict_update [] params in
  let self := dict_set "n_t" (VInt (match n_t with Some n => n | None => 2000 end)) self in
  let self := dict_set "comm" (VComm mpicomm) self in
  let self :=
    dict_set "seed_offset" (VInt (match seed_offset with Some o => o | None => 0 end)) self in
  let self := dict_set "verbose" (VBool (match verbose with Some b => b | None => true end)) self in
  match dict_get "latsize" params with
  | None => InitAttributeError
  | Some v =>
      match int_of v with
      | None => InitTypeError
      | Some N =>
          match np_zeros (3 * N + 9 * N * N) with
          | None => InitValueError
          | Some workspace => Built (dict_set "workspace" (VArray workspace) self)
          end
      end
  end.

(** The attributes [dtwa_bbgky] reads from [self]. *)
Definition system_of (self : dict) : option System :=
  match dict_get "n_t" self, dict_get "seed_offset" self,
        dict_get "verbose" self, dict_get "latsize" self with
  | Some (VInt n), Some (VInt o), Some (VBool v), Some l =>
      match int_of l with
      | Some N => Some {| n_t := n; seed_offset := o; verbose := v; latsize := N |}
      | None => None
      end
  | _, _, _, _ => None
  end.

(** The names [__init__] binds itself. *)
Definition own_names : list string :=
  ["n_t"; "comm"; "seed_offset"; "verbose"; "workspace"]%string.

End Init.

(** ** More concrete inputs *)

Module ToyRuns.

Import TimeGrid Driver.

(** The driver on the small instance, for any system, process and time
    input. *)
Definition run_on (self : System) (comm : Comm) (time_info : pyobj)
  : M Z Z (option (OutData Z)) :=
  dtwa_bbgky 0 Z Toy.cast Toy.sample Toy.np_concatenate Toy.odeint Z Z
    Toy.weyl_hamilt Toy.t_deriv Toy.np_square Zsum Zsum Z.div Z.sqrt Z
    Toy.bbgky_observables Toy.normalize_data Toy.sum_reduce_all_data
    self comm time_info "spr".

Definition system (n offset : Z) (verbose : bool) : System :=
  {| n_t := n; seed_offset := offset; verbose := verbose; latsize := 2 |}.

Definition on (r P : Z) : Comm := {| rank := r; size := P |}.

(** The attributes of a parameter object that, besides its own data,
    carries attributes named like those the constructor binds. *)
Definition params : Init.dict :=
  [("latsize", Init.VInt 2); ("n_t", Init.VInt 7); ("verbose", Init.VBool false);
   ("jmat", Init.VObj 1); ("hvec", Init.VObj 2)]%string.

End ToyRuns.

(** * Proofs *)

(** ** Lists *)

Lemma Zsum_app (l1 l2 : list Z) : Zsum (l1 ++ l2) = Zsum l1 + Zsum l2.
Proof.
  unfold Zsum. induction l1 as [|x l1 IH]; simpl; [reflexivity | lia].
Qed.

Lemma range_length (n : Z) : List.length (range n) = Z.to_nat n.
Proof. unfold range. now rewrite length_map, length_seq. Qed.

Lemma range_succ (k : nat) :
  range (Z.of_nat (S k)) = range (Z.of_nat k) ++ [Z.of_nat k].
Proof.
  unfold range. rewrite !Nat2Z.id, seq_S, map_app. reflexivity.
Qed.

Lemma in_range (n r : Z) : In r (range n) <-> 0 <= r < n.
Proof.
  unfold range. rewrite in_map_iff. split.
  - intros (i & <- & Hi). apply in_seq in Hi. lia.
  - intros Hr. exists (Z.to_nat r). split; [lia |]. apply in_seq. lia.
Qed.

Lemma traverse_total {A B : Type} (f : A -> option B) (g : A -> B) (l : list A) :
  (forall x, In x l -> f x = Some (g x)) -> traverse f l = Some (map g l).
Proof.
  induction l as [|x l IH]; intros H; simpl; [reflexivity |].
  rewrite (H x (or_introl eq_refl)), IH; [reflexivity |].
  intros y Hy. apply H. now right.
Qed.

Lemma map_nth_seq {A : Type} (l : list A) (d : A) :
  map (fun i => nth i l d) (seq 0 (List.length l)) = l.
Proof.
  induction l as [|x l IH]; simpl; [reflexivity |].
  rewrite <- seq_shift, map_map. simpl. now rewrite IH.
Qed.

Lemma map_nth_range {A B : Type} (g : A -> B) (l : list A) (d : A) :
  map (fun r => g (nth (Z.to_nat r) l d)) (range (Z.of_nat (List.length l)))
  = map g l.
Proof.
  unfold range. rewrite Nat2Z.id, map_map.
  transitivity (map g (map (fun i => nth i l d) (seq 0 (List.length l)))).
  - rewrite map_map. apply map_ext. intros i. now rewrite Nat2Z.id.
  - now rewrite map_nth_seq.
Qed.

Lemma firstn_plus {A : Type} (n m : nat) (l : list A) :
  firstn (n + m) l = firstn n l ++ firstn m (skipn n l).
Proof.
  revert l. induction n as [|n IH]; intros l; simpl; [reflexivity |].
  destruct l as [|x l]; simpl.
  - now rewrite firstn_nil.
  - now rewrite IH.
Qed.

Lemma skipn_plus {A : Type} (n m : nat) (l : list A) :
  skipn (n + m) l = skipn m (skipn n l).
Proof.
  revert l. induction n as [|n IH]; intros l; simpl; [reflexivity |].
  destruct l as [|x l]; simpl; [now rewrite skipn_nil | apply IH].
Qed.

Lemma cumsum_from_length (acc : Z) (l : list Z) :
  List.length (cumsum_from acc l) = List.length l.
Proof. revert acc. induction l; intros; simpl; auto. Qed.

Lemma excl_from_length (acc : Z) (l : list Z) :
  List.length (excl_from acc l) = List.length l.
Proof. revert acc. induction l; intros; simpl; auto. Qed.

(** The exclusive scan is the inclusive one shifted by one place. *)
Lemma excl_from_cumsum (acc x : Z) (l : list Z) :
  excl_from acc (x :: l)
  = acc :: firstn (List.length l) (cumsum_from acc (x :: l)).
Proof.
  revert acc x. induction l as [|y l IH]; intros acc x.
  - reflexivity.
  - change (excl_from acc (x :: y :: l)) with (acc :: excl_from (acc + x) (y :: l)).
    rewrite IH. reflexivity.
Qed.

(** Rolling by one place and clearing the first entry turns the
    inclusive scan into the displacements. *)
Lemma roll_one_clear (a : list Z) :
  a <> [] ->
  setitem (roll a 1) 0 0 = Some (0 :: firstn (List.length a - 1) a).
Proof.
  intros Ha. destruct a as [|x a]; [congruence |].
  unfold roll, setitem.
  set (n := Z.of_nat (List.length (x :: a))).
  assert (Hn : n = Z.of_nat (List.length a) + 1) by (unfold n; simpl List.length; lia).
  destruct a as [|y a].
  - reflexivity.
  - assert (Hmod : 1 mod n = 1).
    { apply Z.mod_small. rewrite Hn. simpl List.length. lia. }
    rewrite Hmod.
    replace (Z.to_nat (n - 1)) with (S (List.length a))
      by (rewrite Hn; simpl List.length; lia).
    set (b := x :: y :: a).
    assert (Hlen : List.length (skipn (S (List.length a)) b) = 1%nat).
    { rewrite length_skipn. unfold b. simpl List.length. lia. }
    destruct (skipn (S (List.length a)) b) as [|z [|? ?]] eqn:E; simpl in Hlen; try lia.
    rewrite length_app, length_firstn. unfold b at 1 2.
    simpl List.length.
    replace (0 <=? 0) with true by reflexivity.
    replace (0 <? Z.of_nat (1 + Init.Nat.min (S (List.length a)) (S (S (List.length a)))))
      with true by (symmetry; apply Z.ltb_lt; lia).
    simpl andb. cbv iota. simpl Z.to_nat.
    replace (S (S (List.length a)) - 1)%nat with (S (List.length a)) by lia.
    reflexivity.
Qed.

(** Slices cut at the exclusive prefix sums tile the buffer. *)
Lemma slices_tile (buf cs : list Z) (acc : Z) :
  0 <= acc -> Forall (fun c => 0 <= c) cs ->
  concat (map (fun cd => firstn (Z.to_nat (fst cd)) (skipn (Z.to_nat (snd cd)) buf))
              (combine cs (excl_from acc cs)))
  = firstn (Z.to_nat (Zsum cs)) (skipn (Z.to_nat acc) buf).
Proof.
  intros Hacc Hcs. revert acc Hacc.
  induction Hcs as [|c cs Hc Hcs IH]; intros acc Hacc; simpl.
  - reflexivity.
  - rewrite IH by lia.
    assert (Hs : 0 <= Zsum cs).
    { clear IH. induction Hcs; simpl; lia. }
    fold (Zsum cs).
    replace (Z.to_nat (c + Zsum cs)) with (Z.to_nat c + Z.to_nat (Zsum cs))%nat by lia.
    replace (Z.to_nat (acc + c)) with (Z.to_nat acc + Z.to_nat c)%nat by lia.
    now rewrite firstn_plus, skipn_plus.
Qed.

Lemma filter_concat_map_single {A B : Type} (f : B -> bool) (g : A -> list B)
  (h : A -> B) (l : list A) :
  (forall x, filter f (g x) = [h x]) -> filter f (concat (map g l)) = map h l.
Proof.
  intros H. induction l as [|x l IH]; simpl; [reflexivity |].
  now rewrite filter_app, H, IH.
Qed.

Lemma filter_concat_map_nil {A B : Type} (f : B -> bool) (g : A -> list B)
  (l : list A) :
  (forall x, filter f (g x) = []) -> filter f (concat (map g l)) = [].
Proof.
  intros H. induction l as [|x l IH]; simpl; [reflexivity |].
  now rewrite filter_app, H, IH.
Qed.

(** ** The round-robin counts *)

Section Counts.

Import Partition.

Variables n_t P : Z.
Hypothesis HP : 1 <= P.

(** The counting loop ends and returns the closed form, from any starting
    point, as soon as the fuel covers the distance to [n_t]. *)
Lemma nt_loc_loop_val (fuel : nat) (it acc : Z) :
  (Z.to_nat (n_t - it) <= fuel)%nat ->
  nt_loc_loop fuel n_t P it acc = Some (acc + Z.max 0 ((n_t - it + P - 1) / P)).
Proof.
  revert it acc. induction fuel as [|fuel IH]; intros it acc Hfuel; simpl;
    destruct (it <? n_t) eqn:E;
    try (apply Z.ltb_lt in E); try (apply Z.ltb_ge in E); try lia.
  - f_equal. assert ((n_t - it + P - 1) / P < 1)
      by (apply Z.div_lt_upper_bound; lia). lia.
  - rewrite IH by lia. f_equal.
    replace (n_t - it + P - 1) with (n_t - it - 1 + 1 * P) by lia.
    rewrite Z.div_add by lia.
    replace (n_t - (it + P) + P - 1) with (n_t - it - 1) by lia.
    assert (0 <= (n_t - it - 1) / P) by (apply Z.div_pos; lia). lia.
  - f_equal. assert ((n_t - it + P - 1) / P < 1)
      by (apply Z.div_lt_upper_bound; lia). lia.
Qed.

Lemma nt_loc_total (r : Z) : nt_loc n_t P r = Some (nt_loc_val n_t P r).
Proof.
  unfold nt_loc, nt_loc_val. now rewrite nt_loc_loop_val by lia.
Qed.

Lemma all_ntlocs_total :
  all_ntlocs n_t P = Some (map (nt_loc_val n_t P) (range P)).
Proof.
  unfold all_ntlocs. apply traverse_total. intros r _. apply nt_loc_total.
Qed.

Hypothesis Hn : 0 <= n_t.

(** A rank below the remainder gets one index more than the quotient. *)
Lemma nt_loc_val_split (r : Z) :
  0 <= r < P ->
  nt_loc_val n_t P r = n_t / P + (if r <? n_t mod P then 1 else 0).
Proof.
  intros Hr. unfold nt_loc_val.
  pose proof (Z.div_mod n_t P ltac:(lia)) as Hdm.
  pose proof (Z.mod_pos_bound n_t P ltac:(lia)) as Hm.
  assert (Hq : 0 <= n_t / P) by (apply Z.div_pos; lia).
  replace (n_t - r + P - 1) with (n_t mod P - r + P - 1 + (n_t / P) * P) by lia.
  rewrite Z.div_add by lia.
  destruct (r <? n_t mod P) eqn:E.
  - apply Z.ltb_lt in E.
    replace (n_t mod P - r + P - 1) with (n_t mod P - r - 1 + 1 * P) by lia.
    rewrite Z.div_add by lia. rewrite Z.div_small by lia. lia.
  - apply Z.ltb_ge in E.
    rewrite Z.div_small by lia. lia.
Qed.

Lemma nt_loc_val_nonneg (r : Z) : 0 <= nt_loc_val n_t P r.
Proof. unfold nt_loc_val. lia. Qed.

(** The first [k] counts add up to [k] quotients plus the part of the
    remainder handed out so far. *)
Lemma nt_loc_val_prefix_sum (k : nat) :
  Z.of_nat k <= P ->
  Zsum (map (nt_loc_val n_t P) (range (Z.of_nat k)))
  = Z.of_nat k * (n_t / P) + Z.min (Z.of_nat k) (n_t mod P).
Proof.
  induction k as [|k IH]; intros Hk.
  - simpl. pose proof (Z.mod_pos_bound n_t P ltac:(lia)). lia.
  - rewrite range_succ, map_app, Zsum_app, IH by lia.
    simpl map. unfold Zsum at 1. simpl fold_right.
    rewrite nt_loc_val_split by lia.
    destruct (Z.of_nat k <? n_t mod P) eqn:E;
      [apply Z.ltb_lt in E | apply Z.ltb_ge in E]; lia.
Qed.

Lemma nt_loc_val_sum : Zsum (map (nt_loc_val n_t P) (range P)) = n_t.
Proof.
  replace P with (Z.of_nat (Z.to_nat P)) at 2 by lia.
  rewrite nt_loc_val_prefix_sum by lia.
  pose proof (Z.div_mod n_t P ltac:(lia)).
  pose proof (Z.mod_pos_bound n_t P ltac:(lia)). lia.
Qed.

Lemma nt_loc_val_balanced (r1 r2 : Z) :
  0 <= r1 < P -> 0 <= r2 < P ->
  Z.abs (nt_loc_val n_t P r1 - nt_loc_val n_t P r2) <= 1.
Proof.
  intros H1 H2. rewrite !nt_loc_val_split by assumption.
  destruct (r1 <? n_t mod P), (r2 <? n_t mod P); lia.
Qed.

End Counts.

(** One more index goes to the rank it is congruent to. *)
Lemma nt_loc_val_step (n P r : Z) :
  1 <= P -> 0 <= n -> 0 <= r < P ->
  Partition.nt_loc_val (n + 1) P r
  = Partition.nt_loc_val n P r + (if n mod P =? r then 1 else 0).
Proof.
  intros HP Hn Hr. unfold Partition.nt_loc_val.
  pose proof (Z.div_mod (n - r + P - 1) P ltac:(lia)) as Hdm.
  pose proof (Z.mod_pos_bound (n - r + P - 1) P ltac:(lia)) as Hm.
  assert (H0 : 0 <= (n - r + P - 1) / P) by (apply Z.div_pos; lia).
  destruct (n mod P =? r) eqn:E.
  - apply Z.eqb_eq in E.
    assert (Hx : (n - r + P - 1) mod P = P - 1).
    { replace (n - r + P - 1) with (n - r - 1 + 1 * P) by lia.
      rewrite Z.mod_add by lia.
      pose proof (Z.div_mod n P ltac:(lia)) as Hd.
      replace (n - r - 1) with (P - 1 + (n / P - 1) * P) by lia.
      rewrite Z.mod_add by lia. apply Z.mod_small. lia. }
    assert (Hy : (n + 1 - r + P - 1) / P = (n - r + P - 1) / P + 1).
    { symmetry. apply Z.div_unique with (r := 0); lia. }
    rewrite Hy. lia.
  - apply Z.eqb_neq in E.
    assert (Hx : (n - r + P - 1) mod P <> P - 1).
    { intros Hx. apply E.
      pose proof (Z.div_mod n P ltac:(lia)) as Hd.
      pose proof (Z.mod_pos_bound n P ltac:(lia)) as Hm'.
      assert (Hk : n mod P - r = P * ((n - r + P - 1) / P - n / P)) by lia.
      assert (Hc : (n - r + P - 1) / P - n / P = 0) by nia.
      rewrite Hc in Hk. lia. }
    assert (Hy : (n + 1 - r + P - 1) / P = (n - r + P - 1) / P).
    { symmetry. apply Z.div_unique with (r := (n - r + P - 1) mod P + 1); lia. }
    rewrite Hy. lia.
Qed.

(** The count of a rank is the number of indices below [n_t] that the
    round robin sends to it. *)
Lemma nt_loc_val_round_robin (n : nat) (P r : Z) :
  1 <= P -> 0 <= r < P ->
  Partition.nt_loc_val (Z.of_nat n) P r
  = Z.of_nat (List.length (filter (fun i => i mod P =? r) (range (Z.of_nat n)))).
Proof.
  intros HP Hr. induction n as [|n IH].
  - assert (H : (Z.of_nat 0 - r + P - 1) / P < 1)
      by (apply Z.div_lt_upper_bound; simpl; lia).
    unfold Partition.nt_loc_val.
    change (range (Z.of_nat 0)) with (@nil Z). simpl filter. simpl List.length. lia.
  - rewrite range_succ, filter_app, length_app, Nat2Z.inj_add, <- IH.
    replace (Z.of_nat (S n)) with (Z.of_nat n + 1) by lia.
    rewrite nt_loc_val_step by lia. simpl filter.
    destruct (Z.of_nat n mod P =? r); reflexivity.
Qed.

Lemma nth_map_range {A : Type} (f : Z -> A) (n r : Z) (d : A) :
  0 <= r < n -> nth (Z.to_nat r) (map f (range n)) d = f r.
Proof.
  intros Hr. unfold range. rewrite map_map.
  rewrite nth_indep with (d' := f (Z.of_nat 0))
    by (rewrite length_map, length_seq; lia).
  rewrite (map_nth (fun i => f (Z.of_nat i))), seq_nth by lia.
  f_equal. lia.
Qed.

Lemma firstn_seq_min (k s n : nat) : firstn k (seq s n) = seq s (Nat.min k n).
Proof.
  revert s n. induction k as [|k IH]; intros s [|n]; simpl; try reflexivity.
  now rewrite IH.
Qed.

Lemma seq_from (d c : nat) : seq d c = map (fun i => (d + i)%nat) (seq 0 c).
Proof.
  induction c as [|c IH]; [reflexivity |].
  rewrite !seq_S, map_app, <- IH. reflexivity.
Qed.

Lemma firstn_range (k n : Z) : 0 <= k <= n -> firstn (Z.to_nat k) (range n) = range k.
Proof.
  intros Hk. unfold range. rewrite firstn_map, firstn_seq_min.
  do 2 f_equal. lia.
Qed.

Lemma nth_excl_from (l : list Z) (acc : Z) (k : nat) :
  (k < List.length l)%nat -> nth k (excl_from acc l) 0 = acc + Zsum (firstn k l).
Proof.
  revert acc k. induction l as [|x l IH]; intros acc k Hk; simpl in Hk; [lia |].
  destruct k as [|k]; simpl.
  - lia.
  - rewrite IH by lia. fold (Zsum (firstn k l)). lia.
Qed.

(** A slice of the seed array that stays inside it holds consecutive
    seeds. *)
Lemma all_seeds_slice (n d c : Z) :
  0 <= d -> 0 <= c -> d + c <= n ->
  firstn (Z.to_nat c) (skipn (Z.to_nat d) (Partition.all_seeds n))
  = map (fun i => d + i + 1) (range c).
Proof.
  intros Hd Hc Hdc. unfold Partition.all_seeds, range.
  rewrite !map_map, skipn_map, firstn_map, skipn_seq, firstn_seq_min.
  replace (Init.Nat.min (Z.to_nat c) (Z.to_nat n - Z.to_nat d)) with (Z.to_nat c) by lia.
  rewrite seq_from, map_map. apply map_ext. intros i. lia.
Qed.

(** ** The seed scatter with the coordinating process at rank 0 *)

Lemma all_displacements_root0 (counts : list Z) :
  counts <> [] ->
  Partition.all_displacements 0 counts = Some (excl_from 0 counts).
Proof.
  intros Hc. unfold Partition.all_displacements, cumsum.
  destruct counts as [|x l]; [congruence |].
  rewrite roll_one_clear by (simpl; congruence).
  rewrite excl_from_cumsum, cumsum_from_length. simpl List.length.
  replace (S (List.length l) - 1)%nat with (List.length l) by lia.
  reflexivity.
Qed.

Section Scatter.

Import Partition.

Variables n_t P : Z.
Hypothesis HP : 1 <= P.
Hypothesis Hn : 0 <= n_t.

Let counts : list Z := map (nt_loc_val n_t P) (range P).
Let displs : list Z := excl_from 0 counts.

Lemma counts_length : List.length counts = Z.to_nat P.
Proof. unfold counts. now rewrite length_map, range_length. Qed.

Lemma counts_nonempty : counts <> [].
Proof.
  intros H. pose proof counts_length as Hl. rewrite H in Hl. simpl in Hl. lia.
Qed.

Lemma counts_nonneg : Forall (fun c => 0 <= c) counts.
Proof.
  unfold counts. apply Forall_forall. intros c Hc.
  apply in_map_iff in Hc. destruct Hc as (r & <- & _). apply nt_loc_val_nonneg.
Qed.

Lemma counts_nth (r : Z) :
  0 <= r < P -> nth (Z.to_nat r) counts 0 = nt_loc_val n_t P r.
Proof. intros Hr. unfold counts. now apply nth_map_range. Qed.

Lemma displs_nth (r : Z) :
  0 <= r < P ->
  nth (Z.to_nat r) displs 0 = r * (n_t / P) + Z.min r (n_t mod P).
Proof.
  intros Hr. unfold displs.
  rewrite nth_excl_from by (rewrite counts_length; lia).
  unfold counts. rewrite firstn_map, firstn_range by lia.
  rewrite <- (Z2Nat.id r) at 1 by lia.
  rewrite nt_loc_val_prefix_sum by lia.
  rewrite Z2Nat.id by lia. lia.
Qed.

(** Every slice of the scatter lies inside the seed array. *)
Lemma slice_in_bounds (r : Z) :
  0 <= r < P ->
  0 <= nth (Z.to_nat r) displs 0 /\
  nth (Z.to_nat r) displs 0 + nth (Z.to_nat r) counts 0 <= n_t.
Proof.
  intros Hr. rewrite displs_nth, counts_nth, nt_loc_val_split by lia.
  pose proof (Z.div_mod n_t P ltac:(lia)) as Hdm.
  pose proof (Z.mod_pos_bound n_t P ltac:(lia)) as Hm.
  assert (Hq : 0 <= n_t / P) by (apply Z.div_pos; lia).
  destruct (r <? n_t mod P) eqn:E;
    [apply Z.ltb_lt in E | apply Z.ltb_ge in E]; nia.
Qed.

Lemma scatterv_slice (r : Z) :
  0 <= r < P ->
  scatterv (all_seeds n_t) counts displs r
  = map (fun i => nth (Z.to_nat r) displs 0 + i + 1)
        (range (nth (Z.to_nat r) counts 0)).
Proof.
  intros Hr. unfold scatterv.
  destruct (slice_in_bounds r Hr) as [H0 H1].
  apply all_seeds_slice; try lia.
  rewrite counts_nth by lia. apply nt_loc_val_nonneg.
Qed.

Lemma all_seeds_length : List.length (all_seeds n_t) = Z.to_nat n_t.
Proof. unfold all_seeds. now rewrite length_map, range_length. Qed.

(** The slices, taken in rank order, are the seed array. *)
Lemma scatterv_concat :
  concat (map (scatterv (all_seeds n_t) counts displs) (range P)) = all_seeds n_t.
Proof.
  replace P with (Z.of_nat (List.length (combine counts displs))).
  2:{ rewrite length_combine. unfold displs.
      rewrite excl_from_length, counts_length. lia. }
  set (g := fun cd : Z * Z =>
              firstn (Z.to_nat (fst cd)) (skipn (Z.to_nat (snd cd)) (all_seeds n_t))).
  transitivity
    (concat (map (fun r => g (nth (Z.to_nat r) (combine counts displs) (0, 0)))
                 (range (Z.of_nat (List.length (combine counts displs)))))).
  - f_equal. apply map_ext. intros r. unfold scatterv, g.
    rewrite combine_nth by (unfold displs; now rewrite excl_from_length).
    reflexivity.
  - rewrite (map_nth_range g). unfold g, displs.
    rewrite slices_tile by (try lia; apply counts_nonneg).
    unfold counts. rewrite nt_loc_val_sum by lia.
    simpl skipn. apply firstn_all2. rewrite all_seeds_length. lia.
Qed.

End Scatter.

Lemma all_seeds_NoDup (n : Z) : NoDup (Partition.all_seeds n).
Proof.
  unfold Partition.all_seeds, range. rewrite map_map.
  apply Injective_map_NoDup; [| apply seq_NoDup].
  intros i j H. lia.
Qed.

Lemma in_all_seeds (n s : Z) : In s (Partition.all_seeds n) <-> 1 <= s <= n.
Proof.
  unfold Partition.all_seeds. rewrite in_map_iff. split.
  - intros (i & <- & Hi). apply in_range in Hi. lia.
  - intros Hs. exists (s - 1). split; [lia |]. apply in_range. lia.
Qed.

(** ** Claims on the work partition *)

(** C1. For every trajectory count [n_t >= 1] and every number [P >= 1] of
    processes, the counting loop of each rank ends; the count of rank [r]
    is the number of indices [r, r+P, r+2P, ...] below [n_t]; the counts
    gathered in rank order add up to [n_t]; any two of them differ by at
    most one. The counts are a function of [(n_t, P)] alone. *)
Theorem C1_round_robin_counts (n_t P : Z) :
  1 <= n_t -> 1 <= P ->
  exists counts : list Z,
    Partition.all_ntlocs n_t P = Some counts /\
    List.length counts = Z.to_nat P /\
    (forall r, 0 <= r < P ->
       Partition.nt_loc n_t P r = Some (nth (Z.to_nat r) counts 0) /\
       nth (Z.to_nat r) counts 0
       = Z.of_nat (List.length (filter (fun i => i mod P =? r) (range n_t)))) /\
    Zsum counts = n_t /\
    (forall r1 r2, 0 <= r1 < P -> 0 <= r2 < P ->
       Z.abs (nth (Z.to_nat r1) counts 0 - nth (Z.to_nat r2) counts 0) <= 1).
Proof.
  intros Hn HP.
  exists (map (Partition.nt_loc_val n_t P) (range P)).
  split; [now apply all_ntlocs_total |].
  split; [now rewrite length_map, range_length |].
  split; [| split].
  - intros r Hr. rewrite nth_map_range by lia.
    split; [now apply nt_loc_total |].
    rewrite <- (Z2Nat.id n_t) by lia.
    now apply nt_loc_val_round_robin.
  - apply nt_loc_val_sum; lia.
  - intros r1 r2 H1 H2. rewrite !nth_map_range by lia.
    apply nt_loc_val_balanced; lia.
Qed.

(** The scenario of the specification: eight trajectories on three
    processes give the counts 3, 3 and 2. *)
Lemma C1_round_robin_counts_witness :
  1 <= 8 /\ 1 <= 3 /\
  exists counts : list Z,
    Partition.all_ntlocs 8 3 = Some counts /\
    List.length counts = Z.to_nat 3 /\
    (forall r, 0 <= r < 3 ->
       Partition.nt_loc 8 3 r = Some (nth (Z.to_nat r) counts 0) /\
       nth (Z.to_nat r) counts 0
       = Z.of_nat (List.length (filter (fun i => i mod 3 =? r) (range 8)))) /\
    Zsum counts = 8 /\
    (forall r1 r2, 0 <= r1 < 3 -> 0 <= r2 < 3 ->
       Z.abs (nth (Z.to_nat r1) counts 0 - nth (Z.to_nat r2) counts 0) <= 1).
Proof.
  split; [lia |]. split; [lia |]. apply (C1_round_robin_counts 8 3); lia.
Defined.

Example all_ntlocs_8_3 : Partition.all_ntlocs 8 3 = Some [3; 3; 2].
Proof. reflexivity. Qed.

(** C2. For [n_t >= 1] and [P >= 1], with the coordinating process at rank
    0: the displacements computed on the root are the exclusive prefix
    sums of the counts, so that rank [r] receives, as one contiguous slice
    of the seed array, the seeds [d_r + 1, ..., d_r + c_r], where [c_r] is
    its count and [d_r] the sum of the counts of the ranks before it; the
    slices in rank order, put end to end, are the seed array; the seed
    array has no duplicates and holds exactly the integers [1 .. n_t]. *)
Theorem C2_seed_scatter (n_t P : Z) :
  1 <= n_t -> 1 <= P ->
  exists counts displs : list Z,
    Partition.all_ntlocs n_t P = Some counts /\
    Partition.all_displacements 0 counts = Some displs /\
    displs = excl_from 0 counts /\
    (forall r, 0 <= r < P ->
       Partition.local_seeds 0 n_t P r
       = Some (map (fun i => nth (Z.to_nat r) displs 0 + i + 1)
                   (range (nth (Z.to_nat r) counts 0)))) /\
    concat (map (fun r => match Partition.local_seeds 0 n_t P r with
                          | Some seeds => seeds
                          | None => []
                          end) (range P))
    = Partition.all_seeds n_t /\
    NoDup (Partition.all_seeds n_t) /\
    (forall s, In s (Partition.all_seeds n_t) <-> 1 <= s <= n_t).
Proof.
  intros Hn HP.
  set (counts := map (Partition.nt_loc_val n_t P) (range P)).
  assert (Hd : Partition.all_displacements 0 counts = Some (excl_from 0 counts)).
  { apply all_displacements_root0. apply counts_nonempty. lia. }
  assert (Hl : forall r, Partition.local_seeds 0 n_t P r
                 = Some (Partition.scatterv (Partition.all_seeds n_t) counts
                           (excl_from 0 counts) r)).
  { intros r. unfold Partition.local_seeds.
    rewrite all_ntlocs_total by lia. fold counts. now rewrite Hd. }
  exists counts, (excl_from 0 counts).
  split; [now apply all_ntlocs_total |].
  split; [exact Hd |]. split; [reflexivity |].
  split; [| split; [| split]].
  - intros r Hr. rewrite Hl. f_equal. apply scatterv_slice; lia.
  - transitivity
      (concat (map (Partition.scatterv (Partition.all_seeds n_t) counts
                      (excl_from 0 counts)) (range P))).
    + f_equal. apply map_ext. intros r. now rewrite Hl.
    + apply scatterv_concat; lia.
  - apply all_seeds_NoDup.
  - intros s. apply in_all_seeds.
Qed.

Lemma C2_seed_scatter_witness :
  1 <= 8 /\ 1 <= 3 /\
  exists counts displs : list Z,
    Partition.all_ntlocs 8 3 = Some counts /\
    Partition.all_displacements 0 counts = Some displs /\
    displs = excl_from 0 counts /\
    (forall r, 0 <= r < 3 ->
       Partition.local_seeds 0 8 3 r
       = Some (map (fun i => nth (Z.to_nat r) displs 0 + i + 1)
                   (range (nth (Z.to_nat r) counts 0)))) /\
    concat (map (fun r => match Partition.local_seeds 0 8 3 r with
                          | Some seeds => seeds
                          | None => []
                          end) (range 3))
    = Partition.all_seeds 8 /\
    NoDup (Partition.all_seeds 8) /\
    (forall s, In s (Partition.all_seeds 8) <-> 1 <= s <= 8).
Proof.
  split; [lia |]. split; [lia |]. apply (C2_seed_scatter 8 3); lia.
Defined.

Example local_seeds_8_3 :
  map (Partition.local_seeds 0 8 3) [0; 1; 2]
  = [Some [1; 2; 3]; Some [4; 5; 6]; Some [7; 8]].
Proof. reflexivity. Qed.

(** With the coordinating process at another rank the displacements of
    lines 152-153 are not the prefix sums of the counts. *)
Example all_displacements_root1 :
  Partition.all_displacements 1 [3; 3; 2] = Some [6; 0; 3].
Proof. reflexivity. Qed.

(** ** Claims on the time grid *)

(** C3, at the input [(0.0, 5.0, 62)]. The step of line 127 is the double
    nearest to [5/61]; inside [np.arange] the quotient [(5.0 - 0.0)/dt] is
    rounded to a double above [61], so the array gets [62] elements, and
    its last element, [0.0 + 61*dt], is [5.0]: the upper bound is a point
    of the grid. For the tuple [(0.0, 1.0, 5)] the same lines give the grid
    [0.0, 0.25, 0.5, 0.75]. *)
Theorem C3_upper_bound_in_grid :
  (exists (dt : Binary64.t) (g : list Binary64.t),
     TimeGrid.time_step (TimeGrid.FloatItem TimeGrid.f0) (TimeGrid.FloatItem TimeGrid.f5)
       (TimeGrid.IntItem 62) = TimeGrid.Ok (TimeGrid.PyF dt) /\
     SFltb (Binary64.of_Z 61) (Binary64.div TimeGrid.f5 dt) = true /\
     TimeGrid.calc_length (TimeGrid.FloatItem TimeGrid.f0) (TimeGrid.FloatItem TimeGrid.f5)
       (TimeGrid.PyF dt) = TimeGrid.Ok (62, Some (TimeGrid.PyF dt)) /\
     (forall is_root : bool,
        TimeGrid.time_block is_root
          (TimeGrid.PyTuple [TimeGrid.FloatItem TimeGrid.f0; TimeGrid.FloatItem TimeGrid.f5;
                             TimeGrid.IntItem 62])
        = ([], TimeGrid.Return (TimeGrid.PyNdarray g))) /\
     List.length g = 62%nat /\
     nth 61 g TimeGrid.f0 = TimeGrid.f5 /\
     last g TimeGrid.f0 = TimeGrid.f5) /\
  (forall is_root : bool,
     TimeGrid.time_block is_root
       (TimeGrid.PyTuple [TimeGrid.FloatItem TimeGrid.f0; TimeGrid.FloatItem TimeGrid.f1;
                          TimeGrid.IntItem 5])
     = ([], TimeGrid.Return (TimeGrid.PyNdarray TimeGrid.scenario_grid))).
Proof.
  split.
  - eexists. eexists.
    split; [vm_compute; reflexivity |].
    split; [vm_compute; reflexivity |].
    split; [vm_compute; reflexivity |].
    split; [intros is_root; vm_compute; reflexivity |].
    split; [vm_compute; reflexivity |].
    split; [vm_compute; reflexivity |].
    vm_compute; reflexivity.
  - intros is_root. vm_compute. reflexivity.
Qed.

(** C4, at the input [time_info = 5.0] (a scalar) and at every other input
    that is neither a tuple nor a list: the condition of line 129 is true
    whatever the type of [time_info], so the input is bound to [t_output]
    as it is, without a message and without leaving the process; the two
    arms that call [exit] are never taken, and no input makes
    [time_block] leave the process with a status at all. *)
Theorem C4_scalar_input_not_rejected :
  (forall (is_root : bool) (x : Binary64.t),
     TimeGrid.time_block is_root (TimeGrid.PyFloat x)
     = ([], TimeGrid.Return (TimeGrid.PyFloat x))) /\
  (forall is_root : bool,
     TimeGrid.time_block is_root TimeGrid.PyNone = ([], TimeGrid.Return TimeGrid.PyNone)) /\
  (forall (is_root : bool) (time_info : TimeGrid.pyobj),
     TimeGrid.select_branch is_root time_info <> TimeGrid.RootExitBranch /\
     TimeGrid.select_branch is_root time_info <> TimeGrid.ExitBranch) /\
  (forall (is_root : bool) (time_info : TimeGrid.pyobj) (msgs : list string) (status : Z),
     TimeGrid.time_block is_root time_info <> (msgs, TimeGrid.Exit status)).
Proof.
  split; [reflexivity |]. split; [reflexivity |].
  assert (Hb : forall is_root time_info,
             TimeGrid.select_branch is_root time_info <> TimeGrid.RootExitBranch /\
             TimeGrid.select_branch is_root time_info <> TimeGrid.ExitBranch).
  { intros is_root time_info. unfold TimeGrid.select_branch, TimeGrid.list_or_ndarray.
    rewrite orb_true_r.
    destruct (TimeGrid.type_is_tuple time_info); split; discriminate. }
  split; [exact Hb |].
  intros is_root time_info msgs status. unfold TimeGrid.time_block.
  destruct (Hb is_root time_info) as [H1 H2].
  destruct (TimeGrid.select_branch is_root time_info); try congruence.
  destruct time_info; try discriminate.
  destruct (TimeGrid.grid_of_tuple items); discriminate.
Qed.

(** With the scalar input the process goes on to the collective calls. *)
Example scalar_input_reaches_collectives :
  firstn 3 (fst Toy.run_scalar)
  = [Driver.Print "# Starting run ..."; Driver.Gather 8; Driver.Scatterv].
Proof. reflexivity. Qed.

(** C10, at the input [(0.0, 1.0, 2)]. Line 127 gives [dt = 1.0] and
    [np.arange(0.0, 1.0, 1.0)] is the single point [0.0]: the tuple yields
    a grid of length one. With [1] for the number of steps and Python
    floats for the bounds the division of line 127 raises
    [ZeroDivisionError]. *)
Theorem C10_two_steps_give_one_point :
  TimeGrid.time_step (TimeGrid.FloatItem TimeGrid.f0) (TimeGrid.FloatItem TimeGrid.f1)
    (TimeGrid.IntItem 2) = TimeGrid.Ok (TimeGrid.PyF TimeGrid.f1) /\
  (forall is_root : bool,
     TimeGrid.time_block is_root
       (TimeGrid.PyTuple [TimeGrid.FloatItem TimeGrid.f0; TimeGrid.FloatItem TimeGrid.f1;
                          TimeGrid.IntItem 2])
     = ([], TimeGrid.Return (TimeGrid.PyNdarray [TimeGrid.f0]))) /\
  (forall is_root : bool,
     TimeGrid.time_block is_root
       (TimeGrid.PyTuple [TimeGrid.FloatItem TimeGrid.f0; TimeGrid.FloatItem TimeGrid.f1;
                          TimeGrid.IntItem 1])
     = ([], TimeGrid.Raise TimeGrid.ZeroDivisionError)).
Proof.
  split; [vm_compute; reflexivity |].
  split; intros is_root; vm_compute; reflexivity.
Qed.

(** ** The shape of a run with the coordinating process at rank 0 *)

Section RunFacts.

Import TimeGrid Driver.

Variable Data : Type.
Variable cast : Dtype -> Data -> Data.
Variable sample : System -> string -> Z -> ndarray Data * ndarray Data.
Variable np_concatenate : ndarray Data -> ndarray Data -> ndarray Data.
Variable odeint : System -> ndarray Data -> pyobj -> ndarray Data.
Variables (HW Row : Type).
Variable weyl_hamilt : ndarray Data -> pyobj -> System -> list HW.
Variable t_deriv : HW -> pyobj -> Row.
Variable np_square : Row -> Row.
Variable np_sum_axis0 : list Row -> Row.
Variable intracomm_reduce : list Row -> Row.
Variable row_div : Row -> Z -> Row.
Variable np_sqrt : Row -> Row.
Variable Channels : Type.
Variable bbgky_observables : pyobj -> ndarray Data -> System -> Channels.
Variable normalize_data : Channels -> Z -> Z -> Channels.
Variable sum_reduce_all_data :
  System -> list (list Channels) -> pyobj -> Comm -> option (OutData Channels).

Let run := dtwa_bbgky 0 Data cast sample np_concatenate odeint HW Row
             weyl_hamilt t_deriv np_square np_sum_axis0 intracomm_reduce
             row_div np_sqrt Channels bbgky_observables normalize_data
             sum_reduce_all_data.

Let loop := trajectory_loop Data cast sample np_concatenate odeint HW Row
              weyl_hamilt t_deriv np_square Channels bbgky_observables.

Let lists := local_lists Data cast sample np_concatenate odeint HW Row
               weyl_hamilt t_deriv np_square Channels bbgky_observables.

Let normalized (self : System) (od : OutData Channels) : OutData Channels :=
  {| t_output := t_output od;
     channels := normalize_data (channels od) (n_t self) (latsize self) |}.

(** The time block never prints when the run goes on. *)
Lemma time_block_return (is_root : bool) (time_info t_out : pyobj) (msgs : list string) :
  time_block is_root time_info = (msgs, Return t_out) -> msgs = [].
Proof.
  unfold time_block.
  destruct (select_branch is_root time_info); try discriminate.
  - destruct time_info; try discriminate.
    destruct (grid_of_tuple items); intros H; congruence.
  - congruence.
Qed.

(** What the rank does on the way and how it ends, once the time block
    has produced the grid. *)
Lemma run_unfold (self : System) (comm : Comm) (time_info t_out : pyobj)
  (sampling : string) :
  1 <= size comm -> 0 <= rank comm < size comm ->
  time_block (rank comm =? 0) time_info = ([], Return t_out) ->
  let is_root := rank comm =? 0 in
  let counts := map (Partition.nt_loc_val (n_t self) (size comm)) (range (size comm)) in
  let displs := excl_from 0 counts in
  let lp := loop self sampling t_out
              (Partition.nt_loc_val (n_t self) (size comm) (rank comm))
              (Partition.scatterv (Partition.all_seeds (n_t self)) counts displs
                 (rank comm)) in
  let world := map (lists self sampling t_out counts displs) (range (size comm)) in
  let outdat := sum_reduce_all_data self (map fst world) t_out comm in
  let dhwdt_abs_totals :=
    if is_root
    then Some (np_sqrt (row_div (intracomm_reduce (map (fun w => np_sum_axis0 (snd w)) world))
                          (n_t self * latsize self * latsize self)))
    else None in
  run self comm time_info sampling
  = ((if is_root && verbose self then [Print "# Run parameters:"; PrintVars] else [])
       ++ (if is_root && negb (verbose self) then [Print "# Starting run ..."] else [])
       ++ [Gather (Partition.nt_loc_val (n_t self) (size comm) (rank comm)); Scatterv]
       ++ fst lp
       ++ [SumReduceAllData]
       ++ (if verbose self then [DiagReduce (np_sum_axis0 (snd (snd lp)))] else [])
       ++ (if is_root then
             match outdat with
             | Some _ =>
                 [Normalize (n_t self) (latsize self)]
                   ++ (if verbose self
                       then [Print "t-deriv of Hamilt (abs square) with wigner avg: ";
                             Print "  "; Tabulate t_out dhwdt_abs_totals]
                       else [])
                   ++ [Print "# Done!"]
             | None => []
             end
           else []),
     if is_root then
       match outdat with
       | Some od => Return (Some (normalized self od))
       | None => Raise AttributeError
       end
     else Return None).
Proof.
  intros Hsize Hrank Htime.
  unfold run, dtwa_bbgky, time_grid.
  rewrite Htime, nt_loc_total, all_ntlocs_total by lia.
  cbn [arrive bind ret emit emit_if fst snd map app].
  rewrite all_displacements_root0 by (apply counts_nonempty; lia).
  cbn [arrive bind ret emit emit_if fst snd map app].
  unfold loop, lists.
  set (lp := trajectory_loop _ _ _ _ _ _ _ _ _ _ _ _ _ _ _ _ _).
  set (outdat := sum_reduce_all_data _ _ _ _).
  destruct lp as [evs [ld dl]], outdat as [od|];
    destruct (rank comm =? 0), (verbose self); simpl;
    rewrite ?app_nil_r; try reflexivity;
    repeat (rewrite <- ?app_assoc; simpl); reflexivity.
Qed.

(** The state a seed is integrated from, and the integrated trajectory. *)
Let init_state (self : System) (sampling : string) (seed : Z) : ndarray Data :=
  np_array Data cast
    (np_concatenate (fst (sample self sampling (seed + seed_offset self)))
                    (snd (sample self sampling (seed + seed_offset self))))
    Float64.

Let integrated (self : System) (sampling : string) (t_out : pyobj) (seed : Z)
  : ndarray Data :=
  odeint self (init_state self sampling seed) t_out.

Let traj := trajectory Data cast sample np_concatenate odeint HW Row
              weyl_hamilt t_deriv np_square Channels bbgky_observables.

Let observe := SpecModel.observe Data cast sample np_concatenate odeint
                 Channels bbgky_observables.

Lemma trajectory_observe (self : System) (sampling : string) (t_out : pyobj) (seed : Z) :
  fst (snd (traj self sampling t_out seed)) = observe self sampling t_out seed.
Proof.
  unfold traj, observe, trajectory, SpecModel.observe.
  destruct (sample self sampling (seed + seed_offset self)). reflexivity.
Qed.

Lemma observe_widened (self : System) (sampling : string) (t_out : pyobj) (seed : Z) :
  observe self sampling t_out seed
  = bbgky_observables t_out
      (np_array Data cast (integrated self sampling t_out seed) Float128) self.
Proof.
  unfold observe, SpecModel.observe, integrated, init_state.
  destruct (sample self sampling (seed + seed_offset self)). reflexivity.
Qed.

Lemma trajectory_events (self : System) (sampling : string) (t_out : pyobj) (seed : Z) :
  fst (traj self sampling t_out seed)
  = [Sample (seed + seed_offset self); Odeint (verbose self)]
      ++ (if verbose self then [WeylHamilt (integrated self sampling t_out seed)] else [])
      ++ [Observables (np_array Data cast (integrated self sampling t_out seed) Float128)].
Proof.
  unfold traj, trajectory, integrated, init_state.
  destruct (sample self sampling (seed + seed_offset self)). reflexivity.
Qed.

(** The loop visits the received seeds in order. *)
Lemma loop_by_seeds (self : System) (sampling : string) (t_out : pyobj)
  (c : Z) (seeds : list Z) :
  c = Z.of_nat (List.length seeds) ->
  loop self sampling t_out c seeds
  = (concat (map (fun seed => fst (traj self sampling t_out seed)) seeds),
     (map (observe self sampling t_out) seeds,
      concat (map (fun seed => snd (snd (traj self sampling t_out seed))) seeds))).
Proof.
  intros ->. unfold loop, trajectory_loop. fold traj.
  rewrite (map_nth_range (traj self sampling t_out)), !map_map.
  f_equal. f_equal. apply map_ext. intros seed. apply trajectory_observe.
Qed.

Lemma scatterv_length (n P r : Z) :
  1 <= P -> 0 <= n -> 0 <= r < P ->
  Partition.nt_loc_val n P r
  = Z.of_nat (List.length
      (Partition.scatterv (Partition.all_seeds n)
         (map (Partition.nt_loc_val n P) (range P))
         (excl_from 0 (map (Partition.nt_loc_val n P) (range P))) r)).
Proof.
  intros HP Hn Hr. rewrite scatterv_slice by lia.
  rewrite length_map, range_length, nth_map_range by lia.
  pose proof (nt_loc_val_nonneg n P r). lia.
Qed.

(** The local data of a rank are the contributions of its seeds. *)
Lemma lists_by_seeds (self : System) (sampling : string) (t_out : pyobj) (P r : Z) :
  1 <= P -> 0 <= n_t self -> 0 <= r < P ->
  fst (lists self sampling t_out
         (map (Partition.nt_loc_val (n_t self) P) (range P))
         (excl_from 0 (map (Partition.nt_loc_val (n_t self) P) (range P))) r)
  = map (observe self sampling t_out)
        (Partition.scatterv (Partition.all_seeds (n_t self))
           (map (Partition.nt_loc_val (n_t self) P) (range P))
           (excl_from 0 (map (Partition.nt_loc_val (n_t self) P) (range P))) r).
Proof.
  intros HP Hn Hr. unfold lists, local_lists. fold loop.
  rewrite nth_map_range by lia.
  rewrite loop_by_seeds by (apply scatterv_length; lia).
  reflexivity.
Qed.

(** The events of the loop, rank by rank. *)
Lemma loop_events (self : System) (sampling : string) (t_out : pyobj) (P r : Z) :
  1 <= P -> 0 <= n_t self -> 0 <= r < P ->
  let seeds := Partition.scatterv (Partition.all_seeds (n_t self))
                 (map (Partition.nt_loc_val (n_t self) P) (range P))
                 (excl_from 0 (map (Partition.nt_loc_val (n_t self) P) (range P))) r in
  fst (loop self sampling t_out (Partition.nt_loc_val (n_t self) P r) seeds)
  = concat (map (fun seed => fst (traj self sampling t_out seed)) seeds).
Proof.
  intros HP Hn Hr seeds. unfold seeds.
  rewrite loop_by_seeds by (apply scatterv_length; lia). reflexivity.
Qed.

(** Events that no pass of the loop emits are absent from the loop. *)
Lemma loop_events_filter_nil (f : event Data Row -> bool) (self : System)
  (sampling : string) (t_out : pyobj) (c : Z) (seeds : list Z) :
  (forall seed, filter f (fst (traj self sampling t_out seed)) = []) ->
  filter f (fst (loop self sampling t_out c seeds)) = [].
Proof.
  intros H. unfold loop, trajectory_loop. cbn [fst]. rewrite map_map.
  apply filter_concat_map_nil. intros runcount. apply H.
Qed.

(** The local data of a rank, whatever the diagnostics compute. *)
Lemma lists_fst (self : System) (sampling : string) (t_out : pyobj)
  (ntlocs displs : list Z) (r : Z) :
  fst (lists self sampling t_out ntlocs displs r)
  = map (fun runcount =>
           observe self sampling t_out
             (nth (Z.to_nat runcount)
                (Partition.scatterv (Partition.all_seeds (n_t self)) ntlocs displs r) 0))
        (range (nth (Z.to_nat r) ntlocs 0)).
Proof.
  unfold lists, local_lists, trajectory_loop. cbn [fst snd]. rewrite map_map.
  apply map_ext. intros runcount. apply trajectory_observe.
Qed.

(** The lists the processes pass to the reduction, in rank order. *)
Let world_data (self : System) (sampling : string) (t_out : pyobj) (P : Z)
  : list (list Channels) :=
  let counts := map (Partition.nt_loc_val (n_t self) P) (range P) in
  let displs := excl_from 0 counts in
  map (fun r =>
         map (fun runcount =>
                observe self sampling t_out
                  (nth (Z.to_nat runcount)
                     (Partition.scatterv (Partition.all_seeds (n_t self)) counts displs r) 0))
             (range (nth (Z.to_nat r) counts 0)))
      (range P).

(** How the call ends: the diagnostics have no part in it. *)
Lemma run_outcome (self : System) (comm : Comm) (time_info t_out : pyobj)
  (sampling : string) :
  1 <= size comm -> 0 <= rank comm < size comm ->
  time_block (rank comm =? 0) time_info = ([], Return t_out) ->
  snd (run self comm time_info sampling)
  = if rank comm =? 0 then
      match sum_reduce_all_data self (world_data self sampling t_out (size comm))
              t_out comm with
      | Some od => Return (Some (normalized self od))
      | None => Raise AttributeError
      end
    else Return None.
Proof.
  intros Hsize Hrank Htime.
  rewrite (run_unfold self comm time_info t_out sampling Hsize Hrank Htime).
  cbn [snd]. rewrite map_map.
  replace (map (fun x => fst (lists self sampling t_out
                  (map (Partition.nt_loc_val (n_t self) (size comm)) (range (size comm)))
                  (excl_from 0
                     (map (Partition.nt_loc_val (n_t self) (size comm)) (range (size comm))))
                  x)) (range (size comm)))
    with (world_data self sampling t_out (size comm)); [reflexivity |].
  unfold world_data. apply map_ext. intros r. symmetry. apply lists_fst.
Qed.

End RunFacts.


(** ** Claims on a run *)

Section RunClaims.

Import TimeGrid Driver.

Variable Data : Type.
Variable cast : Dtype -> Data -> Data.
Variable sample : System -> string -> Z -> ndarray Data * ndarray Data.
Variable np_concatenate : ndarray Data -> ndarray Data -> ndarray Data.
Variable odeint : System -> ndarray Data -> pyobj -> ndarray Data.
Variables (HW Row : Type).
Variable weyl_hamilt : ndarray Data -> pyobj -> System -> list HW.
Variable t_deriv : HW -> pyobj -> Row.
Variable np_square : Row -> Row.
Variable np_sum_axis0 : list Row -> Row.
Variable intracomm_reduce : list Row -> Row.
Variable row_div : Row -> Z -> Row.
Variable np_sqrt : Row -> Row.
Variable Channels : Type.
Variable bbgky_observables : pyobj -> ndarray Data -> System -> Channels.
Variable normalize_data : Channels -> Z -> Z -> Channels.
Variable sum_reduce_all_data :
  System -> list (list Channels) -> pyobj -> Comm -> option (OutData Channels).

Let run := dtwa_bbgky 0 Data cast sample np_concatenate odeint HW Row
             weyl_hamilt t_deriv np_square np_sum_axis0 intracomm_reduce
             row_div np_sqrt Channels bbgky_observables normalize_data
             sum_reduce_all_data.

Let lists := local_lists Data cast sample np_concatenate odeint HW Row
               weyl_hamilt t_deriv np_square Channels bbgky_observables.

Let traj := trajectory Data cast sample np_concatenate odeint HW Row
              weyl_hamilt t_deriv np_square Channels bbgky_observables.

Let unfolded := run_unfold Data cast sample np_concatenate odeint HW Row
                  weyl_hamilt t_deriv np_square np_sum_axis0 intracomm_reduce
                  row_div np_sqrt Channels bbgky_observables normalize_data
                  sum_reduce_all_data.

(** C5. When the time block has produced the grid and the reduction hands
    the coordinating process a data object, the call on the coordinating
    process (rank 0) returns that object, normalised, and the call on
    every other rank returns [None]. *)
Theorem C5_root_returns_dataset (self : System) (P : Z)
  (time_info t_out : pyobj) (sampling : string) :
  1 <= P ->
  (forall is_root : bool, time_block is_root time_info = ([], Return t_out)) ->
  (forall world, sum_reduce_all_data self world t_out {| rank := 0; size := P |} <> None) ->
  (exists (world : list (list Channels)) (od : OutData Channels),
     sum_reduce_all_data self world t_out {| rank := 0; size := P |} = Some od /\
     snd (run self {| rank := 0; size := P |} time_info sampling)
     = Return (Some {| t_output := t_output od;
                       channels := normalize_data (channels od) (n_t self) (latsize self) |})) /\
  (forall r : Z, 0 < r < P ->
     snd (run self {| rank := r; size := P |} time_info sampling) = Return None).
Proof.
  intros HP Htime Hred. split.
  - pose proof (unfolded self {| rank := 0; size := P |} time_info t_out sampling) as Hrun.
    cbn [rank size] in Hrun.
    specialize (Hrun HP ltac:(lia) (Htime _)). cbv zeta in Hrun.
    fold run in Hrun. rewrite Hrun. cbn [snd].
    change (0 =? 0) with true. cbv iota.
    match goal with
    | |- context [sum_reduce_all_data self ?w t_out ?c] =>
        destruct (sum_reduce_all_data self w t_out c) as [od|] eqn:E;
        [exists w, od; split; [exact E | reflexivity] | now apply Hred in E]
    end.
  - intros r Hr.
    pose proof (unfolded self {| rank := r; size := P |} time_info t_out sampling) as Hrun.
    cbn [rank size] in Hrun.
    specialize (Hrun HP ltac:(lia) (Htime _)). cbv zeta in Hrun.
    fold run in Hrun. rewrite Hrun. cbn [snd].
    replace (r =? 0) with false by (symmetry; apply Z.eqb_neq; lia).
    reflexivity.
Qed.

(** C9. On every rank and for every seed the rank received, the array the
    integrator returned is converted to [float128] before
    [bbgky_observables] is called: the calls of [bbgky_observables], in
    program order, get exactly the widened arrays of the received seeds,
    every array passed to it has element type [float128], and the local
    data of the rank are the observables of the widened arrays. *)
Theorem C9_observables_receive_widened_states (self : System) (P r : Z)
  (time_info t_out : pyobj) (sampling : string) :
  1 <= P -> 0 <= n_t self -> 0 <= r < P ->
  (forall is_root : bool, time_block is_root time_info = ([], Return t_out)) ->
  let integrated seed :=
    odeint self
      (np_array Data cast
         (np_concatenate (fst (sample self sampling (seed + seed_offset self)))
                         (snd (sample self sampling (seed + seed_offset self))))
         Float64) t_out in
  let widened seed := np_array Data cast (integrated seed) Float128 in
  let trace := fst (run self {| rank := r; size := P |} time_info sampling) in
  exists seeds counts displs : list Z,
    Partition.all_ntlocs (n_t self) P = Some counts /\
    Partition.all_displacements 0 counts = Some displs /\
    Partition.local_seeds 0 (n_t self) P r = Some seeds /\
    filter is_observables trace = map (fun seed => Observables (widened seed)) seeds /\
    Forall (fun ev => match ev with
                      | Observables s => dtype s = Float128
                      | _ => True
                      end) trace /\
    fst (lists self sampling t_out counts displs r)
    = map (fun seed => bbgky_observables t_out (widened seed) self) seeds.
Proof.
  intros HP Hn Hr Htime integrated widened trace.
  set (counts := map (Partition.nt_loc_val (n_t self) P) (range P)).
  set (displs := excl_from 0 counts).
  set (seeds := Partition.scatterv (Partition.all_seeds (n_t self)) counts displs r).
  assert (Hd : Partition.all_displacements 0 counts = Some displs).
  { apply all_displacements_root0. apply counts_nonempty. lia. }
  assert (Hev : forall seed,
            fst (traj self sampling t_out seed)
            = [Sample (seed + seed_offset self); Odeint (verbose self)]
                ++ (if verbose self then [WeylHamilt (integrated seed)] else [])
                ++ [Observables (widened seed)]).
  { intros seed. apply trajectory_events. }
  pose proof (loop_events Data cast sample np_concatenate odeint HW Row
                weyl_hamilt t_deriv np_square Channels bbgky_observables
                self sampling t_out P r HP Hn Hr) as Hloop.
  cbv zeta in Hloop. fold counts displs seeds traj in Hloop.
  pose proof (unfolded self {| rank := r; size := P |} time_info t_out sampling) as Hrun.
  cbn [rank size] in Hrun. specialize (Hrun HP Hr (Htime _)). cbv zeta in Hrun.
  fold run counts displs seeds in Hrun. rewrite Hloop in Hrun.
  exists seeds, counts, displs.
  split; [now apply all_ntlocs_total |]. split; [exact Hd |].
  split.
  { unfold Partition.local_seeds. rewrite all_ntlocs_total by lia.
    fold counts. now rewrite Hd. }
  split; [| split].
  - unfold trace. rewrite Hrun. cbn [fst]. rewrite !filter_app.
    rewrite (filter_concat_map_single is_observables _
               (fun seed => Observables (widened seed)))
      by (intros seed; rewrite Hev; destruct (verbose self); reflexivity).
    destruct (r =? 0), (verbose self),
      (sum_reduce_all_data self
         (map fst (map (local_lists Data cast sample np_concatenate odeint HW Row
                          weyl_hamilt t_deriv np_square Channels bbgky_observables
                          self sampling t_out counts displs) (range P)))
         t_out {| rank := r; size := P |});
      cbn [andb negb filter is_observables app]; now rewrite app_nil_r.
  - unfold trace. rewrite Hrun. cbn [fst]. rewrite !Forall_app.
    assert (Hl : Forall (fun ev : event Data Row =>
                           match ev with
                           | Observables s => dtype s = Float128
                           | _ => True
                           end)
                   (concat (map (fun seed => fst (traj self sampling t_out seed)) seeds))).
    { apply Forall_concat, Forall_forall. intros evs Hin.
      apply in_map_iff in Hin. destruct Hin as (seed & <- & _).
      rewrite Hev. destruct (verbose self); repeat constructor. }
    destruct (r =? 0), (verbose self),
      (sum_reduce_all_data self
         (map fst (map (local_lists Data cast sample np_concatenate odeint HW Row
                          weyl_hamilt t_deriv np_square Channels bbgky_observables
                          self sampling t_out counts displs) (range P)))
         t_out {| rank := r; size := P |});
      cbn [andb negb app]; repeat split; try exact Hl; repeat constructor.
  - unfold lists, counts, displs.
    rewrite lists_by_seeds by lia. fold counts displs seeds.
    apply map_ext. intros seed. apply observe_widened.
Qed.

(** Another choice of the diagnostic collaborators. *)
Variables (HW' Row' : Type).
Variable weyl_hamilt' : ndarray Data -> pyobj -> System -> list HW'.
Variable t_deriv' : HW' -> pyobj -> Row'.
Variable np_square' : Row' -> Row'.
Variable np_sum_axis0' : list Row' -> Row'.
Variable intracomm_reduce' : list Row' -> Row'.
Variable row_div' : Row' -> Z -> Row'.
Variable np_sqrt' : Row' -> Row'.

Let run' := dtwa_bbgky 0 Data cast sample np_concatenate odeint HW' Row'
              weyl_hamilt' t_deriv' np_square' np_sum_axis0' intracomm_reduce'
              row_div' np_sqrt' Channels bbgky_observables normalize_data
              sum_reduce_all_data.

(** C8. In a verbose run every process enters, besides the one call of
    [sum_reduce_all_data], exactly one reduction of the diagnostics, with
    the sum of its squared derivatives; the coordinating process (rank 0)
    divides the reduced value by [n_t * N * N], takes the square root and
    prints it. The result of the call does not depend on what the
    diagnostic collaborators compute, and it is the result of the same
    call with the verbose output switched off whenever the sampler, the
    integrator, the observables and the reduction do not read the
    verbosity flag. *)
Theorem C8_diagnostic_leaves_dataset (self : System) (P : Z)
  (time_info t_out : pyobj) (sampling : string) :
  1 <= P -> verbose self = true ->
  (forall is_root : bool, time_block is_root time_info = ([], Return t_out)) ->
  (forall world, sum_reduce_all_data self world t_out {| rank := 0; size := P |} <> None) ->
  let counts := map (Partition.nt_loc_val (n_t self) P) (range P) in
  let displs := excl_from 0 counts in
  let world := map (lists self sampling t_out counts displs) (range P) in
  let trace r := fst (run self {| rank := r; size := P |} time_info sampling) in
  (forall r : Z, 0 <= r < P ->
     filter is_diag_reduce (trace r)
     = [DiagReduce (np_sum_axis0 (snd (lists self sampling t_out counts displs r)))] /\
     filter is_sum_reduce (trace r) = [SumReduceAllData]) /\
  filter is_tabulate (trace 0)
  = [Tabulate t_out
       (Some (np_sqrt (row_div (intracomm_reduce (map (fun w => np_sum_axis0 (snd w)) world))
                         (n_t self * latsize self * latsize self))))] /\
  (forall r : Z, 0 <= r < P ->
     snd (run self {| rank := r; size := P |} time_info sampling)
     = snd (run' self {| rank := r; size := P |} time_info sampling)) /\
  (sample self = sample (quiet self) ->
   odeint self = odeint (quiet self) ->
   (forall t s, bbgky_observables t s self = bbgky_observables t s (quiet self)) ->
   sum_reduce_all_data self = sum_reduce_all_data (quiet self) ->
   forall r : Z, 0 <= r < P ->
     snd (run self {| rank := r; size := P |} time_info sampling)
     = snd (run (quiet self) {| rank := r; size := P |} time_info sampling)).
Proof.
  intros HP Hv Htime Hred counts displs world trace.
  assert (Hnil : forall f : event Data Row -> bool,
            (forall a, f (WeylHamilt a) = false) ->
            (forall a, f (Observables a) = false) ->
            (forall z, f (Sample z) = false) ->
            (forall b, f (Odeint b) = false) ->
            forall c seeds,
              filter f (fst (trajectory_loop Data cast sample np_concatenate odeint HW Row
                               weyl_hamilt t_deriv np_square Channels bbgky_observables
                               self sampling t_out c seeds)) = []).
  { intros f H1 H2 H3 H4 c seeds. apply loop_events_filter_nil. intros seed.
    rewrite trajectory_events.
    destruct (verbose self); cbn [app filter]; now rewrite ?H1, ?H2, ?H3, ?H4. }
  assert (Hrun : forall r, 0 <= r < P -> _) by
    (intros r Hr;
     exact (unfolded self {| rank := r; size := P |} time_info t_out sampling
              HP Hr (Htime _))).
  cbn [rank size] in Hrun. cbv zeta in Hrun.
  fold run in Hrun. rewrite Hv in Hrun.
  subst world trace displs counts. cbv beta.
  split; [| split; [| split]].
  - intros r Hr. rewrite (Hrun r Hr). cbn [fst].
    rewrite !filter_app, !Hnil by reflexivity.
    unfold lists, local_lists. rewrite nth_map_range by lia.
    destruct (r =? 0); cbn [andb negb filter is_diag_reduce is_sum_reduce app];
      [| split; reflexivity].
    match goal with
    | |- context [sum_reduce_all_data self ?w t_out ?c] =>
        destruct (sum_reduce_all_data self w t_out c)
    end; split; reflexivity.
  - rewrite (Hrun 0 ltac:(lia)). cbn [fst].
    rewrite !filter_app, !Hnil by reflexivity.
    change (0 =? 0) with true.
    cbn [andb negb filter is_tabulate app].
    match goal with
    | |- context [sum_reduce_all_data self ?w t_out ?c] =>
        destruct (sum_reduce_all_data self w t_out c) eqn:E;
        [reflexivity | now apply Hred in E]
    end.
  - intros r Hr. unfold run, run'.
    rewrite (run_outcome Data cast sample np_concatenate odeint HW Row
               weyl_hamilt t_deriv np_square np_sum_axis0 intracomm_reduce
               row_div np_sqrt Channels bbgky_observables normalize_data
               sum_reduce_all_data self _ time_info t_out sampling)
      by (cbn [rank size]; try lia; apply Htime).
    rewrite (run_outcome Data cast sample np_concatenate odeint HW' Row'
               weyl_hamilt' t_deriv' np_square' np_sum_axis0' intracomm_reduce'
               row_div' np_sqrt' Channels bbgky_observables normalize_data
               sum_reduce_all_data self _ time_info t_out sampling)
      by (cbn [rank size]; try lia; apply Htime).
    reflexivity.
  - intros Hs Ho Hb Hsum r Hr. unfold run.
    rewrite !(run_outcome Data cast sample np_concatenate odeint HW Row
                weyl_hamilt t_deriv np_square np_sum_axis0 intracomm_reduce
                row_div np_sqrt Channels bbgky_observables normalize_data
                sum_reduce_all_data _ _ time_info t_out sampling)
      by (cbn [rank size]; try lia; apply Htime).
    cbn [rank size quiet n_t latsize]. rewrite <- Hsum.
    assert (Hobs : forall seed,
              SpecModel.observe Data cast sample np_concatenate odeint Channels
                bbgky_observables (quiet self) sampling t_out seed
              = SpecModel.observe Data cast sample np_concatenate odeint Channels
                  bbgky_observables self sampling t_out seed).
    { intros seed. unfold SpecModel.observe. cbn [seed_offset quiet].
      rewrite <- Hs. destruct (sample self sampling (seed + seed_offset self)).
      rewrite <- Ho, <- Hb. reflexivity. }
    destruct (r =? 0); [| reflexivity].
    match goal with
    | |- match sum_reduce_all_data self ?w1 _ _ with _ => _ end
         = match sum_reduce_all_data self ?w2 _ _ with _ => _ end =>
        replace w2 with w1; [reflexivity |]
    end.
    apply map_ext. intros r0. apply map_ext. intros runcount.
    symmetry. apply Hobs.
Qed.

End RunClaims.

(** ** Claims on the reduction, against its model from the specification *)

Section ReductionClaims.

Import TimeGrid Driver.

Variable Data : Type.
Variable cast : Dtype -> Data -> Data.
Variable sample : System -> string -> Z -> ndarray Data * ndarray Data.
Variable np_concatenate : ndarray Data -> ndarray Data -> ndarray Data.
Variable odeint : System -> ndarray Data -> pyobj -> ndarray Data.
Variables (HW Row : Type).
Variable weyl_hamilt : ndarray Data -> pyobj -> System -> list HW.
Variable t_deriv : HW -> pyobj -> Row.
Variable np_square : Row -> Row.
Variable np_sum_axis0 : list Row -> Row.
Variable intracomm_reduce : list Row -> Row.
Variable row_div : Row -> Z -> Row.
Variable np_sqrt : Row -> Row.
Variable Channels : Type.
Variable bbgky_observables : pyobj -> ndarray Data -> System -> Channels.
Variable normalize_data : Channels -> Z -> Z -> Channels.

(** The elementwise sum of data objects, in exact arithmetic: associative,
    with the all-zero object as unit. *)
Variable ch_add : Channels -> Channels -> Channels.
Variable ch_zero : Channels.
Hypothesis ch_add_assoc : forall a b c, ch_add a (ch_add b c) = ch_add (ch_add a b) c.
Hypothesis ch_zero_l : forall a, ch_add ch_zero a = a.
Hypothesis ch_zero_r : forall a, ch_add a ch_zero = a.

Let ch_sum := SpecModel.ch_sum Channels ch_add ch_zero.

Let reduce := SpecModel.sum_reduce_all_data_spec 0 Channels ch_add ch_zero.

Let run := dtwa_bbgky 0 Data cast sample np_concatenate odeint HW Row
             weyl_hamilt t_deriv np_square np_sum_axis0 intracomm_reduce
             row_div np_sqrt Channels bbgky_observables normalize_data reduce.

Let observe := SpecModel.observe Data cast sample np_concatenate odeint
                 Channels bbgky_observables.

Let serial := SpecModel.serial_dataset Data cast sample np_concatenate odeint
                Channels bbgky_observables ch_add ch_zero normalize_data.

Lemma fold_left_ch_add (l : list Channels) (a : Channels) :
  fold_left ch_add l a = ch_add a (fold_left ch_add l ch_zero).
Proof.
  revert a. induction l as [|x l IH]; intros a; simpl.
  - now rewrite ch_zero_r.
  - rewrite (IH (ch_add a x)), (IH (ch_add ch_zero x)).
    now rewrite ch_zero_l, ch_add_assoc.
Qed.

Lemma ch_sum_app (l1 l2 : list Channels) :
  ch_sum (l1 ++ l2) = ch_add (ch_sum l1) (ch_sum l2).
Proof.
  unfold ch_sum, SpecModel.ch_sum. rewrite fold_left_app. apply fold_left_ch_add.
Qed.

(** Summing the local sums is summing everything. *)
Lemma ch_sum_concat (ls : list (list Channels)) :
  ch_sum (map ch_sum ls) = ch_sum (concat ls).
Proof.
  induction ls as [|l ls IH].
  - reflexivity.
  - change (map ch_sum (l :: ls)) with ([ch_sum l] ++ map ch_sum ls).
    change (concat (l :: ls)) with (l ++ concat ls).
    rewrite !ch_sum_app, IH. f_equal.
    unfold ch_sum, SpecModel.ch_sum. simpl. apply ch_zero_l.
Qed.

(** The reduced sum of a run on [P] processes is the serial sum. *)
Lemma reduced_is_serial (self : System) (sampling : string) (t_out : pyobj) (P : Z) :
  1 <= P -> 0 <= n_t self ->
  let counts := map (Partition.nt_loc_val (n_t self) P) (range P) in
  let displs := excl_from 0 counts in
  ch_sum (map ch_sum
            (map fst (map (local_lists Data cast sample np_concatenate odeint HW Row
                             weyl_hamilt t_deriv np_square Channels bbgky_observables
                             self sampling t_out counts displs) (range P))))
  = ch_sum (map (observe self sampling t_out) (Partition.all_seeds (n_t self))).
Proof.
  intros HP Hn counts displs. rewrite ch_sum_concat, map_map.
  rewrite <- (scatterv_concat (n_t self) P HP Hn).
  rewrite concat_map, map_map. do 2 f_equal.
  apply map_ext_in. intros r Hr. apply in_range in Hr.
  unfold counts, displs. now apply lists_by_seeds.
Qed.

(** C7. With the sum of data objects associative and with unit (exact
    arithmetic), for fixed [n_t], seed offset and collaborators: the data
    set the coordinating process returns from a run on [P >= 1] processes
    is the data set obtained by summing the contributions of the seeds
    [1 .. n_t] serially and normalising the sum once; hence it is the one
    returned from a run on a single process. *)
Theorem C7_result_independent_of_worker_count (self : System) (P : Z)
  (time_info t_out : pyobj) (sampling : string) :
  1 <= P -> 0 <= n_t self ->
  (forall is_root : bool, time_block is_root time_info = ([], Return t_out)) ->
  snd (run self {| rank := 0; size := P |} time_info sampling)
  = Return (Some (serial self sampling t_out)) /\
  snd (run self {| rank := 0; size := P |} time_info sampling)
  = snd (run self {| rank := 0; size := 1 |} time_info sampling).
Proof.
  intros HP Hn Htime.
  assert (H : forall Q, 1 <= Q ->
            snd (run self {| rank := 0; size := Q |} time_info sampling)
            = Return (Some (serial self sampling t_out))).
  { intros Q HQ. unfold run.
    rewrite (run_unfold Data cast sample np_concatenate odeint HW Row
               weyl_hamilt t_deriv np_square np_sum_axis0 intracomm_reduce
               row_div np_sqrt Channels bbgky_observables normalize_data
               reduce self _ time_info t_out sampling)
      by (cbn [rank size]; try lia; apply Htime).
    cbn [snd rank size]. change (0 =? 0) with true. cbv iota.
    unfold reduce at 1, SpecModel.sum_reduce_all_data_spec.
    cbn [rank]. change (0 =? 0) with true. cbv iota. cbn [t_output channels].
    unfold serial, SpecModel.serial_dataset.
    pose proof (reduced_is_serial self sampling t_out Q HQ Hn) as Hsum.
    cbv zeta in Hsum. unfold ch_sum, observe in Hsum. now rewrite Hsum. }
  split; [now apply H |]. rewrite !H by lia. reflexivity.
Qed.

End ReductionClaims.

Section NormalisationClaims.

Import TimeGrid Driver SpecModel.

Variable Data : Type.
Variable cast : Dtype -> Data -> Data.
Variable sample : System -> string -> Z -> ndarray Data * ndarray Data.
Variable np_concatenate : ndarray Data -> ndarray Data -> ndarray Data.
Variable odeint : System -> ndarray Data -> pyobj -> ndarray Data.
Variables (HW Row : Type).
Variable weyl_hamilt : ndarray Data -> pyobj -> System -> list HW.
Variable t_deriv : HW -> pyobj -> Row.
Variable np_square : Row -> Row.
Variable np_sum_axis0 : list Row -> Row.
Variable intracomm_reduce : list Row -> Row.
Variable row_div : Row -> Z -> Row.
Variable np_sqrt : Row -> Row.
Variable bbgky_observables : pyobj -> ndarray Data -> System -> ChannelsQ.
Variable ch_add : ChannelsQ -> ChannelsQ -> ChannelsQ.
Variable ch_zero : ChannelsQ.
Variable site_factor : corr_channel -> Z -> Q.

Let reduce := sum_reduce_all_data_spec 0 ChannelsQ ch_add ch_zero.

Let run := dtwa_bbgky 0 Data cast sample np_concatenate odeint HW Row
             weyl_hamilt t_deriv np_square np_sum_axis0 intracomm_reduce
             row_div np_sqrt ChannelsQ bbgky_observables
             (normalize_data_spec site_factor) reduce.

Let lists := local_lists Data cast sample np_concatenate odeint HW Row
               weyl_hamilt t_deriv np_square ChannelsQ bbgky_observables.

(** C6. In a run whose time block has produced the grid, the trace of the
    coordinating process (rank 0) has exactly one normalisation, and it
    comes after the one call of the reduction; no other process
    normalises, and every other process returns nothing. The data set
    returned is the globally reduced sum with every site channel divided
    by [n_t] and every correlation channel divided by [n_t] and scaled by
    its site-count factor, once. *)
Theorem C6_normalised_once_on_root (self : System) (P : Z)
  (time_info t_out : pyobj) (sampling : string) :
  1 <= P ->
  (forall is_root : bool, time_block is_root time_info = ([], Return t_out)) ->
  let counts := map (Partition.nt_loc_val (n_t self) P) (range P) in
  let displs := excl_from 0 counts in
  let world := map fst (map (lists self sampling t_out counts displs) (range P)) in
  let raw := ch_sum ChannelsQ ch_add ch_zero (map (ch_sum ChannelsQ ch_add ch_zero) world) in
  let trace r := fst (run self {| rank := r; size := P |} time_info sampling) in
  let nt := inject_Z (n_t self) in
  let N := latsize self in
  (exists pre post : list (event Data Row),
     trace 0 = pre ++ Normalize (n_t self) N :: post /\
     filter is_sum_reduce pre = [SumReduceAllData] /\
     filter is_normalize pre = [] /\
     filter is_sum_reduce post = [] /\
     filter is_normalize post = []) /\
  (forall r : Z, 0 < r < P ->
     filter is_normalize (trace r) = [] /\
     snd (run self {| rank := r; size := P |} time_info sampling) = Return None) /\
  reduce self world t_out {| rank := 0; size := P |}
  = Some {| t_output := t_out; channels := raw |} /\
  exists out : ChannelsQ,
    snd (run self {| rank := 0; size := P |} time_info sampling)
    = Return (Some {| t_output := t_out; channels := out |}) /\
    sx out = map (fun v => v / nt)%Q (sx raw) /\
    sy out = map (fun v => v / nt)%Q (sy raw) /\
    sz out = map (fun v => v / nt)%Q (sz raw) /\
    sxvar out = map (fun v => v / nt * site_factor XX N)%Q (sxvar raw) /\
    syvar out = map (fun v => v / nt * site_factor YY N)%Q (syvar raw) /\
    szvar out = map (fun v => v / nt * site_factor ZZ N)%Q (szvar raw) /\
    sxyvar out = map (fun v => v / nt * site_factor XY N)%Q (sxyvar raw) /\
    sxzvar out = map (fun v => v / nt * site_factor XZ N)%Q (sxzvar raw) /\
    syzvar out = map (fun v => v / nt * site_factor YZ N)%Q (syzvar raw).
Proof.
  intros HP Htime counts displs world raw trace nt N.
  assert (Hnil : forall f : event Data Row -> bool,
            (forall a, f (WeylHamilt a) = false) ->
            (forall a, f (Observables a) = false) ->
            (forall z, f (Sample z) = false) ->
            (forall b, f (Odeint b) = false) ->
            forall c seeds,
              filter f (fst (trajectory_loop Data cast sample np_concatenate odeint HW Row
                               weyl_hamilt t_deriv np_square ChannelsQ bbgky_observables
                               self sampling t_out c seeds)) = []).
  { intros f H1 H2 H3 H4 c seeds. apply loop_events_filter_nil. intros seed.
    rewrite trajectory_events.
    destruct (verbose self); cbn [app filter]; now rewrite ?H1, ?H2, ?H3, ?H4. }
  assert (Hrun : forall r, 0 <= r < P -> _) by
    (intros r Hr;
     exact (run_unfold Data cast sample np_concatenate odeint HW Row
              weyl_hamilt t_deriv np_square np_sum_axis0 intracomm_reduce
              row_div np_sqrt ChannelsQ bbgky_observables
              (normalize_data_spec site_factor) reduce
              self {| rank := r; size := P |} time_info t_out sampling
              HP Hr (Htime _))).
  cbn [rank size] in Hrun. cbv zeta in Hrun. fold run in Hrun.
  assert (Hred : forall w, reduce self w t_out {| rank := 0; size := P |}
                   = Some {| t_output := t_out;
                             channels := ch_sum ChannelsQ ch_add ch_zero
                                           (map (ch_sum ChannelsQ ch_add ch_zero) w) |})
    by reflexivity.
  subst trace. cbv beta.
  split; [| split; [| split]].
  - rewrite (Hrun 0 ltac:(lia)). cbn [fst]. rewrite Hred.
    change (0 =? 0) with true. cbv iota. cbn [andb].
    match goal with
    | |- exists pre post, ?A ++ ?B ++ ?G ++ ?L ++ ?S ++ ?D ++ [?nz] ++ ?V ++ ?E
                          = _ /\ _ =>
        exists (A ++ B ++ G ++ L ++ S ++ D), (V ++ E)
    end.
    split; [now rewrite <- !app_assoc |].
    rewrite !filter_app, !Hnil by reflexivity.
    destruct (verbose self); cbn [negb filter is_sum_reduce is_normalize app];
      repeat split; reflexivity.
  - intros r Hr. rewrite (Hrun r ltac:(lia)). cbn [fst snd].
    replace (r =? 0) with false by (symmetry; apply Z.eqb_neq; lia).
    split; [| reflexivity].
    rewrite !filter_app, !Hnil by reflexivity.
    destruct (verbose self); reflexivity.
  - apply Hred.
  - exists (normalize_data_spec site_factor raw (n_t self) N). split.
    + rewrite (Hrun 0 ltac:(lia)). cbn [snd]. rewrite Hred.
      change (0 =? 0) with true. reflexivity.
    + repeat split; reflexivity.
Qed.

End NormalisationClaims.

(** ** The claims on a concrete run: eight trajectories, three processes *)

Lemma C5_root_returns_dataset_witness :
  1 <= 3 /\
  (forall is_root : bool,
     TimeGrid.time_block is_root Toy.times = ([], TimeGrid.Return Toy.grid)) /\
  (forall world,
     Toy.sum_reduce_all_data (Toy.self8 false) world Toy.grid
       {| Driver.rank := 0; Driver.size := 3 |} <> None) /\
  (exists (world : list (list Z)) (od : Driver.OutData Z),
     Toy.sum_reduce_all_data (Toy.self8 false) world Toy.grid
       {| Driver.rank := 0; Driver.size := 3 |} = Some od /\
     snd (Toy.run false 3 0)
     = TimeGrid.Return
         (Some {| Driver.t_output := Driver.t_output od;
                  Driver.channels := Toy.normalize_data (Driver.channels od) 8 2 |})) /\
  (forall r : Z, 0 < r < 3 -> snd (Toy.run false 3 r) = TimeGrid.Return None).
Proof.
  split; [lia |].
  split; [intros []; reflexivity |].
  split; [intros world; vm_compute; discriminate |].
  apply (C5_root_returns_dataset Z Toy.cast Toy.sample Toy.np_concatenate Toy.odeint
           Z Z Toy.weyl_hamilt Toy.t_deriv Toy.np_square Zsum Zsum Z.div Z.sqrt
           Z Toy.bbgky_observables Toy.normalize_data Toy.sum_reduce_all_data
           (Toy.self8 false) 3 Toy.times Toy.grid "spr").
  - lia.
  - intros []; reflexivity.
  - intros world; vm_compute; discriminate.
Defined.

Example toy_run_root :
  snd (Toy.run false 3 0)
  = TimeGrid.Return (Some {| Driver.t_output := Toy.grid; Driver.channels := 4 |}).
Proof. reflexivity. Qed.

Lemma C7_result_independent_of_worker_count_witness :
  (forall a b c : Z, a + (b + c) = a + b + c) /\
  (forall a : Z, 0 + a = a) /\
  (forall a : Z, a + 0 = a) /\
  1 <= 3 /\ 0 <= Driver.n_t (Toy.self8 false) /\
  (forall is_root : bool,
     TimeGrid.time_block is_root Toy.times = ([], TimeGrid.Return Toy.grid)) /\
  snd (Toy.run false 3 0)
  = TimeGrid.Return
      (Some (SpecModel.serial_dataset Z Toy.cast Toy.sample Toy.np_concatenate
               Toy.odeint Z Toy.bbgky_observables Z.add 0 Toy.normalize_data
               (Toy.self8 false) "spr" Toy.grid)) /\
  snd (Toy.run false 3 0) = snd (Toy.run false 1 0).
Proof.
  split; [intros; lia |]. split; [intros; lia |]. split; [intros; lia |].
  split; [lia |]. split; [simpl; lia |].
  split; [intros []; reflexivity |].
  apply (C7_result_independent_of_worker_count Z Toy.cast Toy.sample
           Toy.np_concatenate Toy.odeint Z Z Toy.weyl_hamilt Toy.t_deriv
           Toy.np_square Zsum Zsum Z.div Z.sqrt Z Toy.bbgky_observables
           Toy.normalize_data Z.add 0
           ltac:(intros; lia) ltac:(intros; lia) ltac:(intros; lia)
           (Toy.self8 false) 3 Toy.times Toy.grid "spr").
  - lia.
  - simpl; lia.
  - intros []; reflexivity.
Defined.

Lemma C8_diagnostic_leaves_dataset_witness :
  1 <= 3 /\
  Driver.verbose (Toy.self8 true) = true /\
  (forall is_root : bool,
     TimeGrid.time_block is_root Toy.times = ([], TimeGrid.Return Toy.grid)) /\
  (forall world,
     Toy.sum_reduce_all_data (Toy.self8 true) world Toy.grid
       {| Driver.rank := 0; Driver.size := 3 |} <> None) /\
  (forall r : Z, 0 <= r < 3 ->
     filter Driver.is_diag_reduce (fst (Toy.run true 3 r))
     = [Driver.DiagReduce (Zsum (snd (Toy.lists3 r)))] /\
     filter Driver.is_sum_reduce (fst (Toy.run true 3 r)) = [Driver.SumReduceAllData]) /\
  filter Driver.is_tabulate (fst (Toy.run true 3 0))
  = [Driver.Tabulate Toy.grid
       (Some (Z.sqrt (Zsum (map (fun w => Zsum (snd w)) (map Toy.lists3 (range 3)))
                      / (8 * 2 * 2))))] /\
  (forall r : Z, 0 <= r < 3 ->
     snd (Toy.run true 3 r) = snd (Toy.run_mute true 3 r)) /\
  (Toy.sample (Toy.self8 true) = Toy.sample (Driver.quiet (Toy.self8 true)) ->
   Toy.odeint (Toy.self8 true) = Toy.odeint (Driver.quiet (Toy.self8 true)) ->
   (forall t s, Toy.bbgky_observables t s (Toy.self8 true)
                = Toy.bbgky_observables t s (Driver.quiet (Toy.self8 true))) ->
   Toy.sum_reduce_all_data (Toy.self8 true)
   = Toy.sum_reduce_all_data (Driver.quiet (Toy.self8 true)) ->
   forall r : Z, 0 <= r < 3 ->
     snd (Toy.run true 3 r) = snd (Toy.run false 3 r)).
Proof.
  split; [lia |]. split; [reflexivity |].
  split; [intros []; reflexivity |].
  split; [intros world; vm_compute; discriminate |].
  apply (C8_diagnostic_leaves_dataset Z Toy.cast Toy.sample Toy.np_concatenate Toy.odeint
           Z Z Toy.weyl_hamilt Toy.t_deriv Toy.np_square Zsum Zsum Z.div Z.sqrt
           Z Toy.bbgky_observables Toy.normalize_data Toy.sum_reduce_all_data
           unit unit (fun _ _ _ => []) (fun _ _ => tt) (fun u => u) (fun _ => tt)
           (fun _ => tt) (fun u _ => u) (fun u => u)
           (Toy.self8 true) 3 Toy.times Toy.grid "spr").
  - lia.
  - reflexivity.
  - intros []; reflexivity.
  - intros world; vm_compute; discriminate.
Defined.

Example toy_run_verbose_root_diagnostic :
  filter Driver.is_tabulate (fst (Toy.run true 3 0))
  = [Driver.Tabulate Toy.grid (Some 2)].
Proof. reflexivity. Qed.

Lemma C9_observables_receive_widened_states_witness :
  1 <= 3 /\ 0 <= Driver.n_t (Toy.self8 true) /\ 0 <= 2 < 3 /\
  (forall is_root : bool,
     TimeGrid.time_block is_root Toy.times = ([], TimeGrid.Return Toy.grid)) /\
  let integrated seed :=
    Toy.odeint (Toy.self8 true)
      (Driver.np_array Z Toy.cast
         (Toy.np_concatenate (fst (Toy.sample (Toy.self8 true) "spr" (seed + 0)))
                             (snd (Toy.sample (Toy.self8 true) "spr" (seed + 0))))
         Driver.Float64) Toy.grid in
  let widened seed := Driver.np_array Z Toy.cast (integrated seed) Driver.Float128 in
  let trace := fst (Toy.run true 3 2) in
  exists seeds counts displs : list Z,
    Partition.all_ntlocs 8 3 = Some counts /\
    Partition.all_displacements 0 counts = Some displs /\
    Partition.local_seeds 0 8 3 2 = Some seeds /\
    filter Driver.is_observables trace
    = map (fun seed => Driver.Observables (widened seed)) seeds /\
    Forall (fun ev => match ev with
                      | Driver.Observables s => Driver.dtype s = Driver.Float128
                      | _ => True
                      end) trace /\
    fst (Driver.local_lists Z Toy.cast Toy.sample Toy.np_concatenate Toy.odeint Z Z
           Toy.weyl_hamilt Toy.t_deriv Toy.np_square Z Toy.bbgky_observables
           (Toy.self8 true) "spr" Toy.grid counts displs 2)
    = map (fun seed => Toy.bbgky_observables Toy.grid (widened seed) (Toy.self8 true)) seeds.
Proof.
  split; [lia |]. split; [simpl; lia |]. split; [lia |].
  split; [intros []; reflexivity |].
  apply (C9_observables_receive_widened_states Z Toy.cast Toy.sample Toy.np_concatenate
           Toy.odeint Z Z Toy.weyl_hamilt Toy.t_deriv Toy.np_square Zsum Zsum Z.div
           Z.sqrt Z Toy.bbgky_observables Toy.normalize_data Toy.sum_reduce_all_data
           (Toy.self8 true) 3 2 Toy.times Toy.grid "spr").
  - lia.
  - simpl; lia.
  - lia.
  - intros []; reflexivity.
Defined.

Example toy_observables_rank2 :
  filter Driver.is_observables (fst (Toy.run true 3 2))
  = [Driver.Observables (Toy.arr Driver.Float128 7);
     Driver.Observables (Toy.arr Driver.Float128 8)].
Proof. reflexivity. Qed.

Lemma C6_normalised_once_on_root_witness :
  1 <= 3 /\
  (forall is_root : bool,
     TimeGrid.time_block is_root Toy.times = ([], TimeGrid.Return Toy.grid)) /\
  let world :=
    map fst
      (map (Driver.local_lists Z Toy.cast Toy.sample Toy.np_concatenate Toy.odeint Z Z
              Toy.weyl_hamilt Toy.t_deriv Toy.np_square SpecModel.ChannelsQ
              Toy.bbgky_observablesQ (Toy.self8 false) "spr" Toy.grid
              (map (Partition.nt_loc_val 8 3) (range 3))
              (excl_from 0 (map (Partition.nt_loc_val 8 3) (range 3))))
           (range 3)) in
  let raw :=
    SpecModel.ch_sum SpecModel.ChannelsQ Toy.ch_addQ (Toy.channelsQ 0)
      (map (SpecModel.ch_sum SpecModel.ChannelsQ Toy.ch_addQ (Toy.channelsQ 0)) world) in
  let trace r := fst (Toy.runQ false 3 r) in
  let nt := inject_Z 8 in
  let N := 2 in
  (exists pre post : list (Driver.event Z Z),
     trace 0 = pre ++ Driver.Normalize 8 N :: post /\
     filter Driver.is_sum_reduce pre = [Driver.SumReduceAllData] /\
     filter Driver.is_normalize pre = [] /\
     filter Driver.is_sum_reduce post = [] /\
     filter Driver.is_normalize post = []) /\
  (forall r : Z, 0 < r < 3 ->
     filter Driver.is_normalize (trace r) = [] /\
     snd (Toy.runQ false 3 r) = TimeGrid.Return None) /\
  Toy.sum_reduce_all_dataQ (Toy.self8 false) world Toy.grid
    {| Driver.rank := 0; Driver.size := 3 |}
  = Some {| Driver.t_output := Toy.grid; Driver.channels := raw |} /\
  exists out : SpecModel.ChannelsQ,
    snd (Toy.runQ false 3 0)
    = TimeGrid.Return (Some {| Driver.t_output := Toy.grid; Driver.channels := out |}) /\
    SpecModel.sx out = map (fun v => v / nt)%Q (SpecModel.sx raw) /\
    SpecModel.sy out = map (fun v => v / nt)%Q (SpecModel.sy raw) /\
    SpecModel.sz out = map (fun v => v / nt)%Q (SpecModel.sz raw) /\
    SpecModel.sxvar out
    = map (fun v => v / nt * Toy.site_factor SpecModel.XX N)%Q (SpecModel.sxvar raw) /\
    SpecModel.syvar out
    = map (fun v => v / nt * Toy.site_factor SpecModel.YY N)%Q (SpecModel.syvar raw) /\
    SpecModel.szvar out
    = map (fun v => v / nt * Toy.site_factor SpecModel.ZZ N)%Q (SpecModel.szvar raw) /\
    SpecModel.sxyvar out
    = map (fun v => v / nt * Toy.site_factor SpecModel.XY N)%Q (SpecModel.sxyvar raw) /\
    SpecModel.sxzvar out
    = map (fun v => v / nt * Toy.site_factor SpecModel.XZ N)%Q (SpecModel.sxzvar raw) /\
    SpecModel.syzvar out
    = map (fun v => v / nt * Toy.site_factor SpecModel.YZ N)%Q (SpecModel.syzvar raw).
Proof.
  split; [lia |]. split; [intros []; reflexivity |].
  apply (C6_normalised_once_on_root Z Toy.cast Toy.sample Toy.np_concatenate Toy.odeint
           Z Z Toy.weyl_hamilt Toy.t_deriv Toy.np_square Zsum Zsum Z.div Z.sqrt
           Toy.bbgky_observablesQ Toy.ch_addQ (Toy.channelsQ 0) Toy.site_factor
           (Toy.self8 false) 3 Toy.times Toy.grid "spr").
  - lia.
  - intros []; reflexivity.
Defined.

(** * Further properties of the code *)

(** ** The work partition, lines 137-160 *)

(** X1. On a communicator of at least one process, a rank counts no
    trajectory exactly when its rank is not below [n_t]: with more
    processes than trajectories the ranks from [n_t] on stay idle, and with
    [n_t <= 0] every rank does. *)
Theorem X1_idle_ranks (n_t P r : Z) :
  1 <= P -> (Partition.nt_loc n_t P r = Some 0 <-> n_t <= r).
Proof.
  intros HP. rewrite nt_loc_total by lia. unfold Partition.nt_loc_val. split.
  - intros H. injection H as H.
    destruct (Z_le_gt_dec n_t r) as [Hle | Hgt]; [exact Hle |].
    assert (1 <= (n_t - r + P - 1) / P) by (apply Z.div_le_lower_bound; lia). lia.
  - intros H. f_equal.
    assert ((n_t - r + P - 1) / P < 1) by (apply Z.div_lt_upper_bound; lia). lia.
Qed.

Lemma X1_idle_ranks_witness :
  1 <= 5 /\ (Partition.nt_loc 3 5 4 = Some 0 <-> 3 <= 4).
Proof. split; [lia |]. apply (X1_idle_ranks 3 5 4). lia. Defined.

(** X2. The counts do not grow with the rank: of two ranks the lower one
    counts at least as many trajectories as the higher one. *)
Theorem X2_counts_antitone (n_t P r1 r2 : Z) :
  1 <= P -> r1 <= r2 ->
  exists c1 c2 : Z,
    Partition.nt_loc n_t P r1 = Some c1 /\
    Partition.nt_loc n_t P r2 = Some c2 /\
    0 <= c2 <= c1.
Proof.
  intros HP Hr. exists (Partition.nt_loc_val n_t P r1), (Partition.nt_loc_val n_t P r2).
  rewrite !nt_loc_total by lia. repeat split; try reflexivity.
  - apply nt_loc_val_nonneg.
  - unfold Partition.nt_loc_val.
    assert ((n_t - r2 + P - 1) / P <= (n_t - r1 + P - 1) / P)
      by (apply Z.div_le_mono; lia). lia.
Qed.

Lemma X2_counts_antitone_witness :
  1 <= 3 /\ 0 <= 2 /\
  exists c1 c2 : Z,
    Partition.nt_loc 8 3 0 = Some c1 /\
    Partition.nt_loc 8 3 2 = Some c2 /\
    0 <= c2 <= c1.
Proof. split; [lia |]. split; [lia |]. apply (X2_counts_antitone 8 3 0 2); lia. Defined.

(** X3. With the coordinating process at rank 0, the seeds of rank [r]
    in closed form: with [q = n_t / P] and [m = n_t mod P], rank [r]
    receives the [q + 1] (if [r < m]) or [q] (otherwise) consecutive seeds
    that start at [r*q + min(r, m) + 1]. *)
Theorem X3_local_seeds_closed_form (n_t P r : Z) :
  1 <= P -> 0 <= n_t -> 0 <= r < P ->
  Partition.local_seeds 0 n_t P r
  = Some (map (fun i => r * (n_t / P) + Z.min r (n_t mod P) + i + 1)
              (range (n_t / P + (if r <? n_t mod P then 1 else 0)))).
Proof.
  intros HP Hn Hr. unfold Partition.local_seeds.
  rewrite all_ntlocs_total by lia.
  rewrite all_displacements_root0 by (apply counts_nonempty; lia).
  rewrite scatterv_slice by lia.
  rewrite displs_nth, counts_nth, nt_loc_val_split by lia.
  reflexivity.
Qed.

Lemma X3_local_seeds_closed_form_witness :
  1 <= 3 /\ 0 <= 8 /\ 0 <= 2 < 3 /\
  Partition.local_seeds 0 8 3 2
  = Some (map (fun i => 2 * (8 / 3) + Z.min 2 (8 mod 3) + i + 1)
              (range (8 / 3 + (if 2 <? 8 mod 3 then 1 else 0)))).
Proof.
  split; [lia |]. split; [lia |]. split; [lia |].
  apply (X3_local_seeds_closed_form 8 3 2); lia.
Defined.

(** ** The division of line 127 with one step *)

(** A quotient by a zero is an infinity or a NaN. *)
Lemma div_by_zero (x : Binary64.t) (s : bool) :
  Binary64.is_infinite (Binary64.div x (S754_zero s))
  || Binary64.is_nan (Binary64.div x (S754_zero s)) = true.
Proof. destruct x; reflexivity. Qed.

(** X19. With [1] for the number of steps (the int [1], the float [1.0] or
    the numpy scalar [1.0]) and floating-point bounds, nothing guards the
    division of line 127. When the three items are Python numbers it
    raises [ZeroDivisionError], on every process alike. As soon as one of
    them is a numpy scalar nothing is raised: [dt] is a numpy scalar, an
    infinity or a NaN. *)
Theorem X19_one_step_division (np_init np_final : bool) (x y : Binary64.t)
  (n_steps : TimeGrid.item) :
  In n_steps [TimeGrid.IntItem 1; TimeGrid.FloatItem TimeGrid.f1;
              TimeGrid.NpFloatItem TimeGrid.f1] ->
  let t_init := TimeGrid.float_item np_init x in
  let t_final := TimeGrid.float_item np_final y in
  if np_init || np_final || TimeGrid.is_numpy n_steps
  then exists dt : Binary64.t,
         TimeGrid.time_step t_init t_final n_steps = TimeGrid.Ok (TimeGrid.NpF dt) /\
         Binary64.is_infinite dt || Binary64.is_nan dt = true
  else TimeGrid.time_step t_init t_final n_steps = TimeGrid.Err TimeGrid.ZeroDivisionError /\
       forall is_root : bool,
         TimeGrid.time_block is_root (TimeGrid.PyTuple [t_init; t_final; n_steps])
         = ([], TimeGrid.Raise TimeGrid.ZeroDivisionError).
Proof.
  intros Hn t_init t_final. subst t_init t_final.
  assert (Hz : Binary64.sub TimeGrid.f1 (Binary64.of_Z 1) = S754_zero false)
    by (vm_compute; reflexivity).
  assert (Hi : TimeGrid.float_of_int 1 = TimeGrid.Ok TimeGrid.f1)
    by (vm_compute; reflexivity).
  simpl in Hn.
  destruct Hn as [<- | [<- | [<- | []]]];
    destruct np_init, np_final;
    cbn [orb TimeGrid.is_numpy TimeGrid.float_item];
    unfold TimeGrid.time_block, TimeGrid.select_branch, TimeGrid.grid_of_tuple,
      TimeGrid.time_step, TimeGrid.sub, TimeGrid.float_op, TimeGrid.truediv;
    cbn [TimeGrid.as_float TimeGrid.and_then TimeGrid.is_numpy TimeGrid.item_of_flo
         TimeGrid.type_is_tuple orb];
    rewrite ?Hi; cbn [TimeGrid.and_then]; rewrite Hz;
    cbn [Binary64.is_zero TimeGrid.and_then];
    first [ split; [reflexivity | intros is_root; reflexivity]
          | eexists; split; [reflexivity | apply div_by_zero] ].
Qed.

Lemma X19_one_step_division_witness :
  In (TimeGrid.IntItem 1) [TimeGrid.IntItem 1; TimeGrid.FloatItem TimeGrid.f1;
                           TimeGrid.NpFloatItem TimeGrid.f1] /\
  TimeGrid.time_step (TimeGrid.FloatItem TimeGrid.f0) (TimeGrid.FloatItem TimeGrid.f1)
    (TimeGrid.IntItem 1) = TimeGrid.Err TimeGrid.ZeroDivisionError /\
  forall is_root : bool,
    TimeGrid.time_block is_root
      (TimeGrid.PyTuple [TimeGrid.FloatItem TimeGrid.f0; TimeGrid.FloatItem TimeGrid.f1;
                         TimeGrid.IntItem 1])
    = ([], TimeGrid.Raise TimeGrid.ZeroDivisionError).
Proof.
  split; [simpl; auto |].
  apply (X19_one_step_division false false TimeGrid.f0 TimeGrid.f1 (TimeGrid.IntItem 1)).
  simpl. auto.
Defined.

(** With numpy scalars for the bounds the same tuple passes line 127:
    [dt] is the infinity. *)
Example one_step_numpy_scalars :
  TimeGrid.time_step (TimeGrid.NpFloatItem TimeGrid.f0) (TimeGrid.NpFloatItem TimeGrid.f1)
    (TimeGrid.IntItem 1) = TimeGrid.Ok (TimeGrid.NpF (S754_infinity false)).
Proof. vm_compute. reflexivity. Qed.

(** ** The run, lines 108-222 *)

Lemma flat_map_concat_map {A B C : Type} (f : B -> list C) (g : A -> list B)
  (l : list A) :
  flat_map f (concat (map g l)) = flat_map (fun x => flat_map f (g x)) l.
Proof.
  induction l as [|x l IH]; simpl; [reflexivity |].
  now rewrite flat_map_app, IH.
Qed.

Lemma flat_map_nil_ext {A B : Type} (f : A -> list B) (l : list A) :
  (forall x, f x = []) -> flat_map f l = [].
Proof.
  intros H. induction l as [|x l IH]; simpl; [reflexivity |].
  now rewrite H, IH.
Qed.

Lemma flat_map_single {A B : Type} (f : A -> list B) (h : A -> B) (l : list A) :
  (forall x, f x = [h x]) -> flat_map f l = map h l.
Proof.
  intros H. induction l as [|x l IH]; simpl; [reflexivity |].
  now rewrite H, IH.
Qed.

(** The time block prints nothing and either returns or raises, the same
    on every process. *)
Lemma time_block_shape (is_root : bool) (time_info : TimeGrid.pyobj) :
  fst (TimeGrid.time_block is_root time_info) = [] /\
  ((exists t_out, snd (TimeGrid.time_block is_root time_info) = TimeGrid.Return t_out) \/
   (exists e, snd (TimeGrid.time_block is_root time_info) = TimeGrid.Raise e)).
Proof.
  unfold TimeGrid.time_block, TimeGrid.select_branch, TimeGrid.list_or_ndarray.
  rewrite orb_true_r.
  destruct (TimeGrid.type_is_tuple time_info) eqn:E.
  - destruct time_info; try discriminate.
    destruct (TimeGrid.grid_of_tuple items); simpl; eauto.
  - simpl. eauto.
Qed.

Lemma time_block_any_rank (b b' : bool) (time_info : TimeGrid.pyobj) :
  TimeGrid.time_block b time_info = TimeGrid.time_block b' time_info.
Proof.
  unfold TimeGrid.time_block, TimeGrid.select_branch, TimeGrid.list_or_ndarray.
  rewrite orb_true_r. reflexivity.
Qed.

Section RunExtras.

Import TimeGrid Driver.

Variable Data : Type.
Variable cast : Dtype -> Data -> Data.
Variable sample : System -> string -> Z -> ndarray Data * ndarray Data.
Variable np_concatenate : ndarray Data -> ndarray Data -> ndarray Data.
Variable odeint : System -> ndarray Data -> pyobj -> ndarray Data.
Variables (HW Row : Type).
Variable weyl_hamilt : ndarray Data -> pyobj -> System -> list HW.
Variable t_deriv : HW -> pyobj -> Row.
Variable np_square : Row -> Row.
Variable np_sum_axis0 : list Row -> Row.
Variable intracomm_reduce : list Row -> Row.
Variable row_div : Row -> Z -> Row.
Variable np_sqrt : Row -> Row.
Variable Channels : Type.
Variable bbgky_observables : pyobj -> ndarray Data -> System -> Channels.
Variable normalize_data : Channels -> Z -> Z -> Channels.
Variable sum_reduce_all_data :
  System -> list (list Channels) -> pyobj -> Comm -> option (OutData Channels).

Let run := dtwa_bbgky 0 Data cast sample np_concatenate odeint HW Row
             weyl_hamilt t_deriv np_square np_sum_axis0 intracomm_reduce
             row_div np_sqrt Channels bbgky_observables normalize_data
             sum_reduce_all_data.

Let traj := trajectory Data cast sample np_concatenate odeint HW Row
              weyl_hamilt t_deriv np_square Channels bbgky_observables.

Let loop := trajectory_loop Data cast sample np_concatenate odeint HW Row
              weyl_hamilt t_deriv np_square Channels bbgky_observables.

Let integrated (self : System) (sampling : string) (t_out : pyobj) (seed : Z)
  : ndarray Data :=
  odeint self
    (np_array Data cast
       (np_concatenate (fst (sample self sampling (seed + seed_offset self)))
                       (snd (sample self sampling (seed + seed_offset self))))
       Float64) t_out.

Let traj_events (self : System) (sampling : string) (t_out : pyobj) (seed : Z) :
  fst (traj self sampling t_out seed)
  = [Sample (seed + seed_offset self); Odeint (verbose self)]
      ++ (if verbose self then [WeylHamilt (integrated self sampling t_out seed)] else [])
      ++ [Observables (np_array Data cast (integrated self sampling t_out seed) Float128)]
  := trajectory_events Data cast sample np_concatenate odeint HW Row
       weyl_hamilt t_deriv np_square Channels bbgky_observables
       self sampling t_out seed.

(** A reading of the loop is the readings of its passes, one after the
    other. *)
Lemma loop_reading {C : Type} (f : event Data Row -> list C) (self : System)
  (sampling : string) (t_out : pyobj) (c : Z) (seeds : list Z) :
  flat_map f (fst (loop self sampling t_out c seeds))
  = flat_map (fun runcount =>
                flat_map f (fst (traj self sampling t_out
                                   (nth (Z.to_nat runcount) seeds 0))))
             (range c).
Proof.
  unfold loop, trajectory_loop. cbn [fst]. rewrite map_map.
  apply (flat_map_concat_map f
           (fun runcount => fst (traj self sampling t_out
                                   (nth (Z.to_nat runcount) seeds 0)))).
Qed.

Lemma loop_collectives (self : System) (sampling : string) (t_out : pyobj)
  (c : Z) (seeds : list Z) :
  Trace.collectives (fst (loop self sampling t_out c seeds)) = [].
Proof.
  unfold Trace.collectives. rewrite loop_reading.
  apply flat_map_nil_ext. intros runcount. rewrite traj_events.
  destruct (verbose self); reflexivity.
Qed.

Lemma loop_output (self : System) (sampling : string) (t_out : pyobj)
  (c : Z) (seeds : list Z) :
  filter Trace.is_output (fst (loop self sampling t_out c seeds)) = [].
Proof.
  apply loop_events_filter_nil. intros seed. fold traj. rewrite traj_events.
  destruct (verbose self); reflexivity.
Qed.

(** When the time block raises, the call ends there. *)
Lemma run_time_failure (self : System) (comm : Comm) (time_info : pyobj)
  (sampling : string) (e : exn) :
  snd (time_block (rank comm =? 0) time_info) = Raise e ->
  run self comm time_info sampling
  = ((if (rank comm =? 0) && verbose self
      then [Print "# Run parameters:"; PrintVars] else [])
       ++ (if (rank comm =? 0) && negb (verbose self)
           then [Print "# Starting run ..."] else []),
     Raise e).
Proof.
  intros H. unfold run, dtwa_bbgky, time_grid.
  destruct (time_block_shape (rank comm =? 0) time_info) as [Hm _].
  destruct (time_block (rank comm =? 0) time_info) as [msgs o].
  cbn [fst snd] in *. subst msgs o.
  destruct ((rank comm =? 0) && verbose self),
           ((rank comm =? 0) && negb (verbose self)); reflexivity.
Qed.

Let unfolded := run_unfold Data cast sample np_concatenate odeint HW Row
                  weyl_hamilt t_deriv np_square np_sum_axis0 intracomm_reduce
                  row_div np_sqrt Channels bbgky_observables normalize_data
                  sum_reduce_all_data.

(** X7. When the time block raises on some process, the call raises the
    same exception on every process of every communicator, and it does so
    before the process has entered a collective or drawn a sample. *)
Theorem X7_time_failure_before_collectives (self : System) (comm : Comm)
  (time_info : pyobj) (sampling : string) (b : bool) (e : exn) :
  snd (time_block b time_info) = Raise e ->
  snd (run self comm time_info sampling) = Raise e /\
  Trace.collectives (fst (run self comm time_info sampling)) = [] /\
  Trace.sampled (fst (run self comm time_info sampling)) = [].
Proof.
  intros H. rewrite (time_block_any_rank b (rank comm =? 0)) in H.
  rewrite (run_time_failure self comm time_info sampling e H). cbn [fst snd].
  split; [reflexivity |].
  destruct ((rank comm =? 0) && verbose self),
           ((rank comm =? 0) && negb (verbose self)); split; reflexivity.
Qed.

(** X8. A tuple that does not have exactly three items makes the
    unpacking fail: every process raises [ValueError], having entered no
    collective. *)
Theorem X8_tuple_arity (self : System) (comm : Comm) (items : list item)
  (sampling : string) :
  List.length items <> 3%nat ->
  snd (run self comm (PyTuple items) sampling) = Raise ValueError /\
  Trace.collectives (fst (run self comm (PyTuple items) sampling)) = [].
Proof.
  intros Hlen.
  assert (H : snd (time_block (rank comm =? 0) (PyTuple items)) = Raise ValueError).
  { unfold time_block, select_branch, grid_of_tuple. simpl type_is_tuple. cbv iota.
    destruct items as [|a [|b [|c [|? ?]]]]; try reflexivity.
    simpl in Hlen. congruence. }
  rewrite (run_time_failure self comm (PyTuple items) sampling ValueError H).
  cbn [fst snd]. split; [reflexivity |].
  destruct ((rank comm =? 0) && verbose self),
           ((rank comm =? 0) && negb (verbose self)); reflexivity.
Qed.

(** X10. Whatever the input, a process other than the coordinating one
    writes nothing to standard output. *)
Theorem X10_only_root_prints (self : System) (P r : Z) (time_info : pyobj)
  (sampling : string) :
  1 <= P -> 0 < r < P ->
  filter Trace.is_output (fst (run self {| rank := r; size := P |} time_info sampling))
  = [].
Proof.
  intros HP Hr.
  assert (Hroot : (r =? 0) = false) by (apply Z.eqb_neq; lia).
  destruct (time_block_shape (r =? 0) time_info) as [Hm [[t_out Ho] | [e Ho]]].
  - assert (Htime : time_block (r =? 0) time_info = ([], Return t_out)).
    { destruct (time_block (r =? 0) time_info); cbn [fst snd] in *. congruence. }
    pose proof (unfolded self {| rank := r; size := P |} time_info t_out sampling) as Hrun.
    cbn [rank size] in Hrun. specialize (Hrun HP ltac:(lia) Htime). cbv zeta in Hrun.
    fold run loop in Hrun. rewrite Hrun. cbn [fst].
    rewrite !filter_app, loop_output, Hroot.
    destruct (verbose self); reflexivity.
  - rewrite (run_time_failure self {| rank := r; size := P |} time_info sampling e Ho).
    cbn [fst rank]. rewrite Hroot. reflexivity.
Qed.

(** The seeds rank [r] receives in the scatter. *)
Let seeds_of (self : System) (P r : Z) : list Z :=
  Partition.scatterv (Partition.all_seeds (n_t self))
    (map (Partition.nt_loc_val (n_t self) P) (range P))
    (excl_from 0 (map (Partition.nt_loc_val (n_t self) P) (range P))) r.

Lemma seeds_of_local_seeds (self : System) (P r : Z) :
  1 <= P -> Partition.local_seeds 0 (n_t self) P r = Some (seeds_of self P r).
Proof.
  intros HP. unfold Partition.local_seeds.
  rewrite all_ntlocs_total by lia.
  now rewrite all_displacements_root0 by (apply counts_nonempty; lia).
Qed.

(** A reading that only looks at the events of the loop body reads, on
    rank [r], the passes for the seeds of [r] in order. *)
Lemma rank_reading {C : Type} (f : event Data Row -> list C) (self : System)
  (P r : Z) (time_info t_out : pyobj) (sampling : string) :
  (forall ev, Trace.is_trajectory_event ev = false -> f ev = []) ->
  1 <= P -> 0 <= n_t self -> 0 <= r < P ->
  time_block (r =? 0) time_info = ([], Return t_out) ->
  flat_map f (fst (run self {| rank := r; size := P |} time_info sampling))
  = flat_map (fun seed => flat_map f (fst (traj self sampling t_out seed)))
             (seeds_of self P r).
Proof.
  intros Hf HP Hn Hr Htime.
  pose proof (unfolded self {| rank := r; size := P |} time_info t_out sampling) as Hrun.
  cbn [rank size] in Hrun. specialize (Hrun HP Hr Htime). cbv zeta in Hrun.
  fold run in Hrun. rewrite Hrun. cbn [fst].
  rewrite (loop_events Data cast sample np_concatenate odeint HW Row
             weyl_hamilt t_deriv np_square Channels bbgky_observables
             self sampling t_out P r HP Hn Hr).
  fold traj. fold (seeds_of self P r).
  rewrite !flat_map_app.
  rewrite (flat_map_concat_map f (fun seed => fst (traj self sampling t_out seed))).
  assert (Hnil : forall l : list (event Data Row),
            forallb (fun ev => negb (Trace.is_trajectory_event ev)) l = true ->
            flat_map f l = []).
  { induction l as [|ev l IH]; [reflexivity |]. simpl. intros H.
    apply andb_true_iff in H. destruct H as [H1 H2].
    rewrite Hf by (now apply negb_true_iff). now apply IH. }
  rewrite !Hnil.
  - now rewrite app_nil_r.
  - destruct (r =? 0); [| reflexivity].
    match goal with
    | |- context [sum_reduce_all_data ?s ?w ?t ?c] =>
        destruct (sum_reduce_all_data s w t c)
    end; destruct (verbose self); reflexivity.
  - destruct (verbose self); reflexivity.
  - reflexivity.
  - reflexivity.
  - destruct ((r =? 0) && negb (verbose self)); reflexivity.
  - destruct ((r =? 0) && verbose self); reflexivity.
Qed.

Lemma rank_sampled (self : System) (P r : Z) (time_info t_out : pyobj)
  (sampling : string) :
  1 <= P -> 0 <= n_t self -> 0 <= r < P ->
  (forall is_root : bool, time_block is_root time_info = ([], Return t_out)) ->
  Trace.sampled (fst (run self {| rank := r; size := P |} time_info sampling))
  = map (fun seed => seed + seed_offset self) (seeds_of self P r).
Proof.
  intros HP Hn Hr Htime. unfold Trace.sampled.
  rewrite (rank_reading _ self P r time_info t_out sampling)
    by (try lia; try apply Htime; intros [] H; try reflexivity; discriminate).
  apply flat_map_single. intros seed. rewrite traj_events.
  destruct (verbose self); reflexivity.
Qed.

Lemma all_sampled (self : System) (P : Z) (time_info t_out : pyobj)
  (sampling : string) :
  1 <= P -> 0 <= n_t self ->
  (forall is_root : bool, time_block is_root time_info = ([], Return t_out)) ->
  concat (map (fun r => Trace.sampled
                          (fst (run self {| rank := r; size := P |} time_info sampling)))
              (range P))
  = map (fun seed => seed + seed_offset self) (Partition.all_seeds (n_t self)).
Proof.
  intros HP Hn Htime.
  rewrite <- (scatterv_concat (n_t self) P HP Hn) at 1.
  rewrite concat_map, map_map. f_equal.
  apply map_ext_in. intros r Hr. apply in_range in Hr.
  now apply (rank_sampled self P r time_info t_out sampling).
Qed.

Lemma in_shifted_seeds (n o s : Z) :
  In s (map (fun seed => seed + o) (Partition.all_seeds n)) <-> o + 1 <= s <= o + n.
Proof.
  rewrite in_map_iff. split.
  - intros (x & <- & Hx). apply in_all_seeds in Hx. lia.
  - intros H. exists (s - o). split; [lia |]. apply in_all_seeds. lia.
Qed.

(** Within the range of [np.int64] the wrapped sum is the sum. *)
Lemma int64_add_exact (a b : Z) :
  - 2 ^ 63 <= a + b < 2 ^ 63 -> int64_add a b = a + b.
Proof.
  intros H. unfold int64_add, int64_wrap.
  rewrite Z.mod_small; lia.
Qed.

Lemma in_seeds_of (self : System) (P r s : Z) :
  In s (seeds_of self P r) -> 1 <= s <= n_t self.
Proof.
  unfold seeds_of, Partition.scatterv. intros H.
  apply in_all_seeds.
  match type of H with
  | In _ (firstn ?a (skipn ?b ?l)) =>
      rewrite <- (firstn_skipn b l); apply in_or_app; right;
      rewrite <- (firstn_skipn a (skipn b l)); apply in_or_app; left; exact H
  end.
Qed.

(** X11. The seeds are [np.int64] values and line 169 adds the offset to
    them in that type. When the offset and [seed_offset + n_t] lie in the
    range of [np.int64], no sum wraps: in a run on [P] processes every
    process samples with the seeds it received plus the offset, in order;
    over all processes the sampler is called with
    [seed_offset + 1, ..., seed_offset + n_t], each value exactly once. *)
Theorem X11_every_seed_sampled_once (self : System) (P : Z)
  (time_info t_out : pyobj) (sampling : string) :
  1 <= P -> 0 <= n_t self < 2 ^ 63 ->
  - 2 ^ 63 <= seed_offset self -> seed_offset self + n_t self < 2 ^ 63 ->
  (forall is_root : bool, time_block is_root time_info = ([], Return t_out)) ->
  let sampled_on r :=
    Trace.sampled (fst (run self {| rank := r; size := P |} time_info sampling)) in
  (forall r : Z, 0 <= r < P ->
     exists seeds : list Z,
       Partition.local_seeds 0 (n_t self) P r = Some seeds /\
       sampled_on r = map (fun seed => int64_add seed (seed_offset self)) seeds) /\
  concat (map sampled_on (range P))
  = map (fun i => seed_offset self + i + 1) (range (n_t self)) /\
  NoDup (concat (map sampled_on (range P))).
Proof.
  intros HP Hn Hlo Hhi Htime sampled_on. unfold sampled_on.
  split; [| split].
  - intros r Hr. exists (seeds_of self P r).
    split; [now apply seeds_of_local_seeds |].
    rewrite (rank_sampled self P r time_info t_out sampling) by (try lia; exact Htime).
    apply map_ext_in. intros s Hs. apply in_seeds_of in Hs.
    symmetry. apply int64_add_exact. lia.
  - rewrite (all_sampled self P time_info t_out sampling HP ltac:(lia) Htime).
    unfold Partition.all_seeds. rewrite map_map. apply map_ext. intros i. lia.
  - rewrite (all_sampled self P time_info t_out sampling HP ltac:(lia) Htime).
    apply Injective_map_NoDup; [| apply all_seeds_NoDup].
    intros x y H. lia.
Qed.

(** X12. Two ensembles of [n >= 1] trajectories each, run with the seed
    offsets of [self1] and [self2] on any numbers of processes, both
    offsets and both [seed_offset + n] in the range of [np.int64] (so that
    no sum of line 169 wraps), share no sampler seed exactly when the
    offsets are at least [n] apart. *)
Theorem X12_offsets_separate_ensembles (self1 self2 : System) (P1 P2 : Z)
  (time_info t_out : pyobj) (sampling : string) :
  1 <= P1 -> 1 <= P2 -> 1 <= n_t self1 < 2 ^ 63 -> n_t self2 = n_t self1 ->
  - 2 ^ 63 <= seed_offset self1 -> seed_offset self1 + n_t self1 < 2 ^ 63 ->
  - 2 ^ 63 <= seed_offset self2 -> seed_offset self2 + n_t self2 < 2 ^ 63 ->
  (forall is_root : bool, time_block is_root time_info = ([], Return t_out)) ->
  let sampled_by self P :=
    concat (map (fun r => Trace.sampled
                            (fst (run self {| rank := r; size := P |} time_info sampling)))
                (range P)) in
  (forall s : Z, In s (sampled_by self1 P1) -> ~ In s (sampled_by self2 P2))
  <-> n_t self1 <= Z.abs (seed_offset self1 - seed_offset self2).
Proof.
  intros HP1 HP2 Hn Heq Hlo1 Hhi1 Hlo2 Hhi2 Htime sampled_by. unfold sampled_by.
  rewrite (all_sampled self1 P1 time_info t_out sampling HP1 ltac:(lia) Htime).
  rewrite (all_sampled self2 P2 time_info t_out sampling HP2 ltac:(lia) Htime).
  rewrite Heq. split.
  - intros H.
    destruct (Z_le_gt_dec (n_t self1) (Z.abs (seed_offset self1 - seed_offset self2)))
      as [Hle | Hgt]; [exact Hle | exfalso].
    apply (H (Z.max (seed_offset self1) (seed_offset self2) + 1));
      apply in_shifted_seeds; lia.
  - intros H s H1 H2.
    apply in_shifted_seeds in H1. apply in_shifted_seeds in H2. lia.
Qed.

(** X13. On every rank the integrator is called once for each received
    seed, with [full_output] set exactly in a verbose run; in a verbose run
    [weyl_hamilt] gets, for each seed, the array as the integrator returned
    it (before it is widened), and in a run that is not verbose
    [weyl_hamilt] is never called. *)
Theorem X13_diagnostics_follow_the_flag (self : System) (P r : Z)
  (time_info t_out : pyobj) (sampling : string) :
  1 <= P -> 0 <= n_t self -> 0 <= r < P ->
  (forall is_root : bool, time_block is_root time_info = ([], Return t_out)) ->
  let trace := fst (run self {| rank := r; size := P |} time_info sampling) in
  exists seeds : list Z,
    Partition.local_seeds 0 (n_t self) P r = Some seeds /\
    Trace.odeint_flags trace = map (fun _ => verbose self) seeds /\
    Trace.weyl_inputs trace
    = if verbose self
      then map (fun seed =>
                  odeint self
                    (np_array Data cast
                       (np_concatenate
                          (fst (sample self sampling (seed + seed_offset self)))
                          (snd (sample self sampling (seed + seed_offset self))))
                       Float64) t_out) seeds
      else [].
Proof.
  intros HP Hn Hr Htime trace. exists (seeds_of self P r).
  split; [now apply seeds_of_local_seeds |]. unfold trace. split.
  - unfold Trace.odeint_flags.
    rewrite (rank_reading _ self P r time_info t_out sampling)
      by (try lia; try apply Htime; intros [] H; try reflexivity; discriminate).
    apply flat_map_single. intros seed. rewrite traj_events.
    destruct (verbose self); reflexivity.
  - unfold Trace.weyl_inputs.
    rewrite (rank_reading _ self P r time_info t_out sampling)
      by (try lia; try apply Htime; intros [] H; try reflexivity; discriminate).
    destruct (verbose self) eqn:V.
    + apply flat_map_single. intros seed. rewrite traj_events, V. reflexivity.
    + apply flat_map_nil_ext. intros seed. rewrite traj_events, V. reflexivity.
Qed.


End RunExtras.

(** The driver applied to the collaborators of the small instance. *)
Local Notation "'on_toy' T" :=
  (T Z Toy.cast Toy.sample Toy.np_concatenate Toy.odeint Z Z Toy.weyl_hamilt
     Toy.t_deriv Toy.np_square Zsum Zsum Z.div Z.sqrt Z Toy.bbgky_observables
     Toy.normalize_data Toy.sum_reduce_all_data)
  (at level 10, T at level 9, only parsing).

Lemma X7_time_failure_before_collectives_witness :
  snd (TimeGrid.time_block true (TimeGrid.PyTuple Toy.one_step))
  = TimeGrid.Raise TimeGrid.ZeroDivisionError /\
  snd (ToyRuns.run_on (Toy.self8 true) (ToyRuns.on 2 3) (TimeGrid.PyTuple Toy.one_step))
  = TimeGrid.Raise TimeGrid.ZeroDivisionError /\
  Trace.collectives
    (fst (ToyRuns.run_on (Toy.self8 true) (ToyRuns.on 2 3) (TimeGrid.PyTuple Toy.one_step)))
  = [] /\
  Trace.sampled
    (fst (ToyRuns.run_on (Toy.self8 true) (ToyRuns.on 2 3) (TimeGrid.PyTuple Toy.one_step)))
  = [].
Proof.
  split; [reflexivity |].
  apply (on_toy X7_time_failure_before_collectives (Toy.self8 true) (ToyRuns.on 2 3)
           (TimeGrid.PyTuple Toy.one_step) "spr"%string true TimeGrid.ZeroDivisionError).
  reflexivity.
Defined.

Lemma X8_tuple_arity_witness :
  List.length Toy.two_items <> 3%nat /\
  snd (ToyRuns.run_on (Toy.self8 true) (ToyRuns.on 0 3) (TimeGrid.PyTuple Toy.two_items))
  = TimeGrid.Raise TimeGrid.ValueError /\
  Trace.collectives
    (fst (ToyRuns.run_on (Toy.self8 true) (ToyRuns.on 0 3) (TimeGrid.PyTuple Toy.two_items)))
  = [].
Proof.
  split; [simpl; lia |].
  apply (on_toy X8_tuple_arity (Toy.self8 true) (ToyRuns.on 0 3) Toy.two_items "spr"%string).
  simpl; lia.
Defined.

Lemma X10_only_root_prints_witness :
  1 <= 3 /\ 0 < 1 < 3 /\
  filter Trace.is_output (fst (ToyRuns.run_on (Toy.self8 true) (ToyRuns.on 1 3) Toy.times))
  = [].
Proof.
  split; [lia |]. split; [lia |].
  apply (on_toy X10_only_root_prints (Toy.self8 true) 3 1 Toy.times "spr"%string); lia.
Defined.

Lemma X11_every_seed_sampled_once_witness :
  1 <= 3 /\ 0 <= Driver.n_t (ToyRuns.system 8 100 false) < 2 ^ 63 /\
  - 2 ^ 63 <= Driver.seed_offset (ToyRuns.system 8 100 false) /\
  Driver.seed_offset (ToyRuns.system 8 100 false)
  + Driver.n_t (ToyRuns.system 8 100 false) < 2 ^ 63 /\
  (forall is_root : bool,
     TimeGrid.time_block is_root Toy.times = ([], TimeGrid.Return Toy.grid)) /\
  let sampled_on r :=
    Trace.sampled (fst (ToyRuns.run_on (ToyRuns.system 8 100 false) (ToyRuns.on r 3)
                          Toy.times)) in
  (forall r : Z, 0 <= r < 3 ->
     exists seeds : list Z,
       Partition.local_seeds 0 8 3 r = Some seeds /\
       sampled_on r = map (fun seed => int64_add seed 100) seeds) /\
  concat (map sampled_on (range 3)) = map (fun i => 100 + i + 1) (range 8) /\
  NoDup (concat (map sampled_on (range 3))).
Proof.
  split; [lia |]. split; [simpl; lia |]. split; [simpl; lia |]. split; [simpl; lia |].
  split; [intros []; reflexivity |].
  apply (on_toy X11_every_seed_sampled_once (ToyRuns.system 8 100 false) 3
           Toy.times Toy.grid "spr"%string).
  - lia.
  - simpl; lia.
  - simpl; lia.
  - simpl; lia.
  - intros []; reflexivity.
Defined.

Example sampled_seeds_with_offset :
  map (fun r => Trace.sampled
                  (fst (ToyRuns.run_on (ToyRuns.system 8 100 false) (ToyRuns.on r 3)
                          Toy.times))) [0; 1; 2]
  = [[101; 102; 103]; [104; 105; 106]; [107; 108]].
Proof. reflexivity. Qed.

(** At the upper end of [np.int64] the sum of line 169 wraps: with the
    offset [2^63 - 1] the first seed becomes [-2^63]. *)
Example int64_add_wraps : int64_add 1 (2 ^ 63 - 1) = - 2 ^ 63.
Proof. reflexivity. Qed.

Lemma X12_offsets_separate_ensembles_witness :
  1 <= 3 /\ 1 <= 2 /\ 1 <= Driver.n_t (ToyRuns.system 8 0 false) < 2 ^ 63 /\
  Driver.n_t (ToyRuns.system 8 8 false) = Driver.n_t (ToyRuns.system 8 0 false) /\
  - 2 ^ 63 <= Driver.seed_offset (ToyRuns.system 8 0 false) /\
  Driver.seed_offset (ToyRuns.system 8 0 false)
  + Driver.n_t (ToyRuns.system 8 0 false) < 2 ^ 63 /\
  - 2 ^ 63 <= Driver.seed_offset (ToyRuns.system 8 8 false) /\
  Driver.seed_offset (ToyRuns.system 8 8 false)
  + Driver.n_t (ToyRuns.system 8 8 false) < 2 ^ 63 /\
  (forall is_root : bool,
     TimeGrid.time_block is_root Toy.times = ([], TimeGrid.Return Toy.grid)) /\
  let sampled_by self P :=
    concat (map (fun r => Trace.sampled (fst (ToyRuns.run_on self (ToyRuns.on r P) Toy.times)))
                (range P)) in
  ((forall s : Z,
      In s (sampled_by (ToyRuns.system 8 0 false) 3) ->
      ~ In s (sampled_by (ToyRuns.system 8 8 false) 2))
   <-> 8 <= Z.abs (0 - 8)).
Proof.
  split; [lia |]. split; [lia |]. split; [simpl; lia |]. split; [reflexivity |].
  split; [simpl; lia |]. split; [simpl; lia |]. split; [simpl; lia |].
  split; [simpl; lia |].
  split; [intros []; reflexivity |].
  apply (on_toy X12_offsets_separate_ensembles (ToyRuns.system 8 0 false)
           (ToyRuns.system 8 8 false) 3 2 Toy.times Toy.grid "spr"%string).
  - lia.
  - lia.
  - simpl; lia.
  - reflexivity.
  - simpl; lia.
  - simpl; lia.
  - simpl; lia.
  - simpl; lia.
  - intros []; reflexivity.
Defined.

Lemma X13_diagnostics_follow_the_flag_witness :
  1 <= 3 /\ 0 <= Driver.n_t (Toy.self8 true) /\ 0 <= 2 < 3 /\
  (forall is_root : bool,
     TimeGrid.time_block is_root Toy.times = ([], TimeGrid.Return Toy.grid)) /\
  let trace := fst (ToyRuns.run_on (Toy.self8 true) (ToyRuns.on 2 3) Toy.times) in
  exists seeds : list Z,
    Partition.local_seeds 0 8 3 2 = Some seeds /\
    Trace.odeint_flags trace = map (fun _ => true) seeds /\
    Trace.weyl_inputs trace
    = if Driver.verbose (Toy.self8 true)
      then map (fun seed =>
                  Toy.odeint (Toy.self8 true)
                    (Driver.np_array Z Toy.cast
                       (Toy.np_concatenate
                          (fst (Toy.sample (Toy.self8 true) "spr" (seed + 0)))
                          (snd (Toy.sample (Toy.self8 true) "spr" (seed + 0))))
                       Driver.Float64) Toy.grid) seeds
      else [].
Proof.
  split; [lia |]. split; [simpl; lia |]. split; [lia |].
  split; [intros []; reflexivity |].
  apply (on_toy X13_diagnostics_follow_the_flag (Toy.self8 true) 3 2
           Toy.times Toy.grid "spr"%string).
  - lia.
  - simpl; lia.
  - lia.
  - intros []; reflexivity.
Defined.


(** ** The constructor, lines 57-106 *)

Section InitFacts.

Import Driver Init.

Variables (params : dict) (mpicomm : Comm).
Variables (n_t seed_offset : option Z) (verbose : option bool).

Lemma workspace_size_nonneg (N : Z) : 0 <= 3 * N + 9 * N * N.
Proof. nia. Qed.

Lemma np_zeros_workspace (N : Z) :
  np_zeros (3 * N + 9 * N * N)
  = Some (repeat 0%Q (Z.to_nat (3 * N + 9 * N * N))).
Proof.
  unfold np_zeros. pose proof (workspace_size_nonneg N) as H.
  destruct (3 * N + 9 * N * N <? 0) eqn:E; [apply Z.ltb_lt in E; lia | reflexivity].
Qed.


End InitFacts.


(** ** The scatter stays inside the seed array, lines 147-160 *)

(** X18. With the coordinating process at rank 0 the scatter never reads
    outside the seed array: there is one displacement per process, every
    slice starts at a non-negative position and ends within the [n_t]
    seeds, and the slice of each rank starts where the slice of the rank
    before it ends. *)
Theorem X18_scatter_in_bounds (n_t P : Z) :
  1 <= P -> 0 <= n_t ->
  exists counts displs : list Z,
    Partition.all_ntlocs n_t P = Some counts /\
    Partition.all_displacements 0 counts = Some displs /\
    List.length counts = Z.to_nat P /\
    List.length displs = Z.to_nat P /\
    forall r : Z, 0 <= r < P ->
      0 <= nth (Z.to_nat r) displs 0 /\
      0 <= nth (Z.to_nat r) counts 0 /\
      nth (Z.to_nat r) displs 0 + nth (Z.to_nat r) counts 0
      <= Z.of_nat (List.length (Partition.all_seeds n_t)) /\
      (r + 1 < P ->
       nth (Z.to_nat (r + 1)) displs 0
       = nth (Z.to_nat r) displs 0 + nth (Z.to_nat r) counts 0).
Proof.
  intros HP Hn.
  exists (map (Partition.nt_loc_val n_t P) (range P)),
         (excl_from 0 (map (Partition.nt_loc_val n_t P) (range P))).
  split; [now apply all_ntlocs_total |].
  split; [apply all_displacements_root0, counts_nonempty; lia |].
  split; [now apply counts_length |].
  split; [rewrite excl_from_length; now apply counts_length |].
  intros r Hr.
  destruct (slice_in_bounds n_t P HP Hn r Hr) as [H0 H1].
  split; [exact H0 |].
  split; [rewrite counts_nth by lia; apply nt_loc_val_nonneg |].
  split; [rewrite all_seeds_length; lia |].
  intros Hr1.
  rewrite !displs_nth, counts_nth, nt_loc_val_split by lia.
  destruct (r <? n_t mod P) eqn:E;
    [apply Z.ltb_lt in E | apply Z.ltb_ge in E]; lia.
Qed.

Lemma X18_scatter_in_bounds_witness :
  1 <= 3 /\ 0 <= 8 /\
  exists counts displs : list Z,
    Partition.all_ntlocs 8 3 = Some counts /\
    Partition.all_displacements 0 counts = Some displs /\
    List.length counts = Z.to_nat 3 /\
    List.length displs = Z.to_nat 3 /\
    forall r : Z, 0 <= r < 3 ->
      0 <= nth (Z.to_nat r) displs 0 /\
      0 <= nth (Z.to_nat r) counts 0 /\
      nth (Z.to_nat r) displs 0 + nth (Z.to_nat r) counts 0
      <= Z.of_nat (List.length (Partition.all_seeds 8)) /\
      (r + 1 < 3 ->
       nth (Z.to_nat (r + 1)) displs 0
       = nth (Z.to_nat r) displs 0 + nth (Z.to_nat r) counts 0).
Proof.
  split; [lia |]. split; [lia |]. apply (X18_scatter_in_bounds 8 3); lia.
Defined.
